(** * world_map.py: the aggregation pipeline and the selection callback

    A shallow embedding of [src/world_map.py].  Python values keep their
    dynamic shape: numbers are [int] or [float] (IEEE binary64, Rocq's
    primitive floats), data-frame cells are what pandas hands out for a
    TSV column, and raising code returns in the [result] monad.

    What the program takes from outside is kept outside: [float] on a
    string, what pandas makes of a column (its dtype, its dates), and
    the [utils] module are class parameters, and every property below
    holds for all of them.  Two conventions are fixed: a table has one
    series per column label, and paths are POSIX paths. *)

From Stdlib Require Import ZArith String Ascii Floats Lia.
From stdpp Require Import base option list gmap strings.

Set Warnings "-inexact-float".

Local Open Scope string_scope.
Local Open Scope Z_scope.

(** ** Exceptions *)

Inductive exn :=
  | ValueError | TypeError | OverflowError | ZeroDivisionError
  | IndexError | KeyError | AttributeError.

Inductive result (A : Type) :=
  | Ok (a : A)
  | Raise (e : exn).
Arguments Ok {A} a.
Arguments Raise {A} e.

#[global] Instance result_ret : MRet result := @Ok.
#[global] Instance result_bind : MBind result := λ A B f m,
  match m with Ok a => f a | Raise e => Raise e end.
#[global] Instance result_fmap : FMap result := λ A B f m,
  match m with Ok a => Ok (f a) | Raise e => Raise e end.

(** [try: body except (caught): handler] *)
Definition try_except {A} (body : result A) (caught : exn → bool)
    (handler : result A) : result A :=
  match body with
  | Ok a => Ok a
  | Raise e => if caught e then handler else Raise e
  end.

(** ** Numbers *)

Inductive num :=
  | PyInt (z : Z)
  | PyFloat (f : float).

(** Nearest binary64 to an integer, ties to even; infinite when out of
    range. *)
Definition Z2float (z : Z) : float :=
  SF2Prim (binary_normalize prec emax z 0 false).

(** [float(n)] for a Python [int]. *)
Definition int_to_float (z : Z) : result float :=
  let f := Z2float z in
  if is_infinity f then Raise OverflowError else Ok f.

Definition as_float (x : num) : result float :=
  match x with
  | PyInt z => int_to_float z
  | PyFloat f => Ok f
  end.

(** [bool(x)]: a number is falsy exactly when it compares equal to zero. *)
Definition float_bool (f : float) : bool := negb (f =? 0)%float.

Definition truthy (x : num) : bool :=
  match x with
  | PyInt z => negb (z =? 0)
  | PyFloat f => float_bool f
  end.

(** [a / b] on two [int]s: the correctly rounded quotient. *)
Definition int_truediv (a b : Z) : result float :=
  if b =? 0 then Raise ZeroDivisionError
  else if a =? 0 then Ok (if b <? 0 then (-0)%float else 0%float)
  else
    let '(q, e, l) := SFdiv_core_binary prec emax (Z.abs a) 0 (Z.abs b) 0 in
    let f := SF2Prim (binary_round_aux prec emax (xorb (a <? 0) (b <? 0)) q e l) in
    if is_infinity f then Raise OverflowError else Ok f.

Definition float_truediv (x y : float) : result float :=
  if (y =? 0)%float then Raise ZeroDivisionError else Ok (x / y)%float.

(** [x / y] *)
Definition py_truediv (x y : num) : result num :=
  match x, y with
  | PyInt a, PyInt b => PyFloat <$> int_truediv a b
  | _, _ =>
      a ← as_float x;
      b ← as_float y;
      PyFloat <$> float_truediv a b
  end.

(** [x * y] *)
Definition py_mul (x y : num) : result num :=
  match x, y with
  | PyInt a, PyInt b => Ok (PyInt (a * b))
  | _, _ =>
      a ← as_float x;
      b ← as_float y;
      Ok (PyFloat (a * b)%float)
  end.

(** [x == y], exact across [int] and [float]. *)
Definition int_eq_float (a : Z) (f : float) : bool :=
  match Prim2SF f with
  | S754_zero _ => a =? 0
  | S754_finite s m e =>
      if 0 <=? e then a =? cond_Zopp s (Z.pos m * 2 ^ e)
      else a * 2 ^ (- e) =? cond_Zopp s (Z.pos m)
  | _ => false
  end.

Definition num_eq (x y : num) : bool :=
  match x, y with
  | PyInt a, PyInt b => a =? b
  | PyFloat f, PyFloat g => (f =? g)%float
  | PyInt a, PyFloat f | PyFloat f, PyInt a => int_eq_float a f
  end.

(** The divisor [y] of [x / y] is a zero. *)
Definition zero_divisor (y : num) : Prop :=
  y = PyInt 0 ∨ ∃ b, as_float y = Ok b ∧ (b =? 0)%float = true.

(** A mantissa-exponent pair worth at least [2 ^ emin], the least
    positive binary64. *)
Definition above_emin (m e : Z) : Prop :=
  ∃ k, 0 ≤ k ∧ 2 ^ k ≤ m ∧ emin ≤ k + e.

(** ** Data frames *)

(** A cell as [Series.iloc] returns it.  A [CFloat] is a float object
    of its own: the numpy.float64 that [iloc] makes of an entry of a
    numeric column, nan when the entry is missing.  [CNaN] is [np.nan]
    itself, the one object pandas keeps for every missing entry of an
    object (text) column and [iloc] hands out as it is. *)
Inductive cell :=
  | CFloat (f : float)   (* a float of its own *)
  | CInt (z : Z)         (* an int: numpy.int64, or a Python int *)
  | CStr (s : string)    (* str *)
  | CNone                (* None *)
  | CNaN.                (* the shared object np.nan *)

(** One series per column label. *)
Abbreviation table := (gmap string (list cell)).

(** The interpreter's [float(str)]: [None] is a [ValueError]. *)
Class Builtins := { str_to_float : string → option float }.

Section extractor.
Context {builtins : Builtins}.

(** [float(x)]: an int beyond the range of binary64 is an
    [OverflowError]. *)
Definition py_float (x : cell) : result float :=
  match x with
  | CFloat f => Ok f
  | CInt z => int_to_float z
  | CStr s => from_option Ok (Raise ValueError) (str_to_float s)
  | CNone => Raise TypeError
  | CNaN => Ok nan
  end.

Definition ValueError_or_TypeError (e : exn) : bool :=
  match e with ValueError | TypeError => true | _ => false end.

(** [get_value(df, column, default=1)], lines 42-49. *)
Definition get_value (df : table) (column : string) (default : num) : result num :=
  match df !! column with
  | Some (first :: _) =>
      try_except
        (value ← py_float first;
         Ok (if float_bool value then PyFloat value else default))
        ValueError_or_TypeError
        (Ok default)
  | _ => Ok default
  end.
End extractor.

(** ** Strings *)

(** [s.rfind(c)]: index of the last [c], or [-1]. *)
Fixpoint rfind (c : ascii) (s : string) : Z :=
  match s with
  | "" => -1
  | String a s' =>
      let r := rfind c s' in
      if 0 <=? r then 1 + r else if Ascii.eqb a c then 0 else -1
  end.

(** [s[i:]] for [0 <= i]. *)
Fixpoint slice_from (i : nat) (s : string) : string :=
  match i, s with
  | O, _ => s
  | S i', String _ s' => slice_from i' s'
  | S _, "" => ""
  end.

(** [os.path.basename] on a POSIX system:
    [i = p.rfind('/') + 1; return p[i:]]. *)
Definition basename (p : string) : string :=
  let i := rfind "/" p + 1 in
  slice_from (Z.to_nat i) p.

(** The scan of [str.split(sep)]: left to right, cutting at each
    occurrence of [sep] and resuming after it ([skip] characters of the
    occurrence are still to be passed). *)
Fixpoint split_from (sep : string) (skip : nat) (s : string) : list string :=
  match s with
  | "" => [""]
  | String c s' =>
      match skip with
      | S k => split_from sep k s'
      | O =>
          if String.prefix sep s then "" :: split_from sep (String.length sep - 1) s'
          else
            match split_from sep 0 s' with
            | seg :: segs => String c seg :: segs
            | [] => [String c ""]
            end
      end
  end.

(** [sep] is a substring of [s]. *)
Definition occurs (sep s : string) : Prop := ∃ a b, s = a ++ sep ++ b.

(** [s.split(sep)] *)
Definition py_split (sep s : string) : result (list string) :=
  match sep with
  | "" => Raise ValueError
  | _ => Ok (split_from sep 0 s)
  end.

(** [l[-1]] *)
Definition item_last {A} (l : list A) : result A :=
  from_option Ok (Raise IndexError) (last l).

(** [l[0]] *)
Definition item_first {A} (l : list A) : result A :=
  from_option Ok (Raise IndexError) (head l).

(** ** Sample records *)

(** The dict built at lines 64-70; [sample_filename] is its key
    ["filename"], [Objects_ml] its key ["Objects/ml"]. *)
Record sample := {
  sample_filename : string;
  Objects_ml : num;
  date : cell;
  lat : cell;
  lon : cell
}.

(** [df[column].iloc[0] if column in df.columns and not df[column].empty
    else None] *)
Definition first_or_None (df : table) (column : string) : cell :=
  match df !! column with
  | Some (first :: _) => first
  | _ => CNone
  end.

(** The name kept for a source path, lines 61-62. *)
Definition filename_of (tsv : string) : result string :=
  let filename := basename tsv in
  parts ← py_split "zip:" filename;
  item_last parts.

Section builder.
Context {builtins : Builtins}.

(** One iteration of the loop at lines 53-71, after the table is loaded. *)
Definition build_record (df_temp : table) (nb_objects : Z) (tsv : string)
    : result sample :=
  acq_imaged_volume ← get_value df_temp "acq_imaged_volume" (PyInt 1);
  sample_dilution_factor ← get_value df_temp "sample_dilution_factor" (PyInt 1);
  sample_concentrated_sample_volume ←
    get_value df_temp "sample_concentrated_sample_volume" (PyInt 1);
  sample_total_volume ← get_value df_temp "sample_total_volume" (PyInt 1);
  filename ← filename_of tsv;
  per_volume ← py_truediv (PyInt nb_objects) acq_imaged_volume;
  diluted ← py_mul per_volume sample_dilution_factor;
  litres ← py_mul sample_total_volume (PyInt 1000);
  fraction ← py_truediv sample_concentrated_sample_volume litres;
  objects_ml ← py_mul diluted fraction;
  Ok {| sample_filename := filename;
        Objects_ml := objects_ml;
        date := first_or_None df_temp "acq_local_datetime";
        lat := first_or_None df_temp "object_lat";
        lon := first_or_None df_temp "object_lon" |}.
End builder.

(** The concentration as the specification writes it:
    [(objectCount / imagedVolume) * dilutionFactor
     * (concentratedSampleVolume / (totalSampleVolume * 1000))]. *)
Definition concentration
    (objectCount imagedVolume dilutionFactor
     concentratedSampleVolume totalSampleVolume : num) : result num :=
  quotient ← py_truediv objectCount imagedVolume;
  left ← py_mul quotient dilutionFactor;
  denominator ← py_mul totalSampleVolume (PyInt 1000);
  right ← py_truediv concentratedSampleVolume denominator;
  py_mul left right.

(** ** Removing duplicates *)

(** [x is y or x == y], the test the comparison of two dicts applies to
    their values.  Two [CFloat] are never the same object, so they are
    compared by [==], under which a nan differs from every float; two
    [CNaN] are the same object, and equal for that reason alone. *)
Definition cell_eq (x y : cell) : bool :=
  match x, y with
  | CFloat f, CFloat g => (f =? g)%float
  | CInt a, CInt b => a =? b
  | CInt a, CFloat f | CFloat f, CInt a => (Z2float a =? f)%float
  | CStr s, CStr t => String.eqb s t
  | CNone, CNone => true
  | CNaN, CNaN => true
  | _, _ => false
  end.

(** [x == y] on two record dicts: the same keys, and under each key
    values that are the same object or equal.  The concentrations are
    floats the arithmetic of line 66 has just made, never one object. *)
Definition sample_eq (x y : sample) : bool :=
  String.eqb (sample_filename x) (sample_filename y)
  && num_eq (Objects_ml x) (Objects_ml y)
  && cell_eq (date x) (date y)
  && cell_eq (lat x) (lat y)
  && cell_eq (lon x) (lon y).

(** [i in l] *)
Definition py_in (i : sample) (l : list sample) : bool :=
  existsb (λ el, sample_eq el i) l.

Definition enumerate {A} (l : list A) : list (nat * A) := imap pair l.

(** Line 74:
    [[i for n, i in enumerate(data_list) if i not in data_list[n + 1:]]]. *)
Definition dedup (data_list : list sample) : list sample :=
  '(n, i) ← enumerate data_list;
  if py_in i (drop (n + 1) data_list) then [] else [i].

(** The cell is a nan of its own, an object no other record holds. *)
Definition is_nan_cell (c : cell) : bool :=
  match c with
  | CFloat f => is_nan f
  | _ => false
  end.

(** One of the fields of the record is a nan of its own. *)
Definition holds_nan (r : sample) : bool :=
  match Objects_ml r with PyFloat f => is_nan f | PyInt _ => false end
  || is_nan_cell (date r) || is_nan_cell (lat r) || is_nan_cell (lon r).

(** Row [n] passes the filter of line 74. *)
Definition survives (data_list : list sample) (n : nat) : bool :=
  match data_list !! n with
  | Some i => negb (py_in i (drop (n + 1) data_list))
  | None => false
  end.

(** ** The data frame and its dates *)

Record timestamp := {
  year : Z; month : Z; day : Z;
  hour : Z; minute : Z; second : Z
}.

(** What the program takes from pandas.  Both functions are given the
    whole column with the entry: pandas settles one dtype, and one date
    format, per column. *)
Class Pandas := {
  (** [pd.DataFrame(data_list)[label]] at one row: what the column built
      from the values [col] holds in place of the value [c]. *)
  frame_entry : list cell → cell → cell;
  (** [pd.to_datetime(col)] at an entry [c] of [col] that is not
      missing: a timestamp, NaT, or a raise. *)
  to_datetime_entry : list cell → cell → result (option timestamp)
}.

Definition isna (c : cell) : bool :=
  match c with
  | CNone | CNaN => true
  | CFloat f => is_nan f
  | _ => false
  end.

Definition digit (n : Z) : ascii := ascii_of_nat (48 + Z.to_nat (n mod 10)).
Definition pad2 (n : Z) : string := String (digit (n / 10)) (String (digit n) "").
Definition pad4 (n : Z) : string :=
  String (digit (n / 1000)) (String (digit (n / 100)) (pad2 n)).

(** [t.strftime('%Y-%m-%d')] *)
Definition strftime_Ymd (t : timestamp) : string :=
  pad4 (year t) ++ "-" ++ pad2 (month t) ++ "-" ++ pad2 (day t).

(** [.dt.strftime('%Y-%m-%d')] on a datetime column; NaT gives nan. *)
Definition dt_strftime (col : list (option timestamp)) : list cell :=
  (λ o, match o with
        | Some t => CStr (strftime_Ymd t)
        | None => CFloat nan
        end) <$> col.

Definition set_date (r : sample) (d : cell) : sample :=
  {| sample_filename := sample_filename r; Objects_ml := Objects_ml r;
     date := d; lat := lat r; lon := lon r |}.

Section frame.
Context {pandas : Pandas}.

(** Line 76, [pd.concat([df, pd.DataFrame(data_list)], ignore_index=True)]
    on the empty [df] of line 36: one row per record, in order.  The
    file names are strings and the concentrations floats, which a
    column keeps as they are; the three other columns hold what pandas
    makes of their values. *)
Definition DataFrame (data_list : list sample) : list sample :=
  (λ r, {| sample_filename := sample_filename r;
           Objects_ml := Objects_ml r;
           date := frame_entry (date <$> data_list) (date r);
           lat := frame_entry (lat <$> data_list) (lat r);
           lon := frame_entry (lon <$> data_list) (lon r) |}) <$> data_list.

(** [pd.to_datetime(col)] (errors='raise') at one entry of [col]: a
    missing entry is NaT. *)
Definition to_datetime1 (col : list cell) (c : cell) : result (option timestamp) :=
  if isna c then Ok None else to_datetime_entry col c.

(** [pd.to_datetime(col)]: the first entry pandas refuses raises. *)
Definition to_datetime (col : list cell) : result (list (option timestamp)) :=
  mapM (to_datetime1 col) col.

(** Lines 82-83 on the rows of the frame. *)
Definition normalise_dates (rows : list sample) : result (list sample) :=
  dates ← to_datetime (date <$> rows);
  Ok (zip_with set_date rows (dt_strftime dates)).
End frame.

(** ** The assembler *)

(** The [utils] module. *)
Class Utils := {
  metadatas : Type;
  find_tsv_files : string → result (list string);
  load_dataframe : string → result (table * Z * metadatas)
}.

Section assembler.
Context {builtins : Builtins} {pandas : Pandas} {utils : Utils}.

(** Lines 53-71. *)
Definition build_all (tsvs : list string) : result (list sample) :=
  mapM (λ tsv,
    '(df_temp, nb_objects, _) ← load_dataframe tsv;
    build_record df_temp nb_objects tsv) tsvs.

(** [create_df(self, path)] *)
Definition create_df (path : string) : result (list sample) :=
  tsvs ← find_tsv_files path;
  data_list ← build_all tsvs;
  let data_list := dedup data_list in
  let df := DataFrame data_list in
  normalise_dates df.
End assembler.

(** ** The map and its selection callback *)

(** The part of the plotly figure the callback reads and writes: the
    customdata row of each record's point, in data-set order, and the
    two marker lists [update_traces] hands to every trace.  Into how
    many traces plotly spreads the points is left out: no line of the
    program looks at it. *)
Record figure := {
  customdata : list (list string);
  marker_size : list num;
  marker_opacity : list num
}.

(** [create_world_map_fig], lines 89-111: [custom_data="filename"] puts
    the file name at the head of the customdata of each record's point
    (the only entry the callback reads); the size list is
    [[10] * len(df)], the opacity list [[0.5] * len(df)]. *)
Definition make_world_map_fig (df : list sample) : figure :=
  {| customdata := (λ r, [sample_filename r]) <$> df;
     marker_size := replicate (length df) (PyInt 10);
     marker_opacity := replicate (length df) (PyFloat 0.5) |}.

(** A controller is the log of what it was asked to publish, oldest
    first; [None] is the demo's [WorldMap(None, app)]. *)
Record WorldMap := {
  controller : option (list (string * string));
  publisher : string;
  df : list sample;
  fig : figure
}.

Record point := {
  pointNumber : Z;
  point_customdata : list string
}.

Record click := { points : list point }.

Inductive callback_output :=
  | no_update
  | Figure (f : figure).

(** Code running on [self]: the state is threaded, and a raise keeps the
    writes made before it. *)
Definition act (A : Type) : Type := WorldMap → result A * WorldMap.

#[global] Instance act_ret : MRet act := λ A a self, (Ok a, self).
#[global] Instance act_bind : MBind act := λ A B f m self,
  match m self with
  | (Ok a, self') => f a self'
  | (Raise e, self') => (Raise e, self')
  end.

Definition lift {A} (r : result A) : act A := λ self, (r, self).
Definition read {A} (f : WorldMap → A) : act A := λ self, (Ok (f self), self).

(** [self.fig.update_traces(marker=dict(opacity=opacity))] *)
Definition update_traces_opacity (opacity : list num) : act unit := λ self,
  (Ok (),
   {| controller := controller self; publisher := publisher self; df := df self;
      fig := {| customdata := customdata (fig self);
                marker_size := marker_size (fig self);
                marker_opacity := opacity |} |}).

(** [self.controller.publish(topic, payload)] *)
Definition controller_publish (topic payload : string) : act unit := λ self,
  match controller self with
  | None => (Raise AttributeError, self)
  | Some log =>
      (Ok (),
       {| controller := Some ((log ++ [(topic, payload)])%list);
          publisher := publisher self; df := df self; fig := fig self |})
  end.

(** [select_point(clickData)], lines 147-165. *)
Definition select_point (clickData : option click) : act callback_output :=
  match clickData with
  | None => mret no_update
  | Some clickData =>
      selected_point ← lift (item_first (points clickData));
      rows ← read (λ self, length (df self));
      let opacity :=
        (λ i : nat, if Z.of_nat i =? pointNumber selected_point
                    then PyInt 1 else PyFloat 0.5) <$> seq 0 rows in
      _ ← update_traces_opacity opacity;
      dataset_name ← lift (item_first (point_customdata selected_point));
      topic ← read publisher;
      _ ← controller_publish topic dataset_name;
      read (λ self, Figure (fig self))
  end.

(** What the browser reports for a click on the point of record [i]:
    the customdata of that point, and its point number, which is the
    row index when the points are drawn as one trace (the callback
    publishes the customdata whatever the number). *)
Definition click_on (f : figure) (i : nat) : option click :=
  cd ← customdata f !! i;
  Some {| points := [ {| pointNumber := Z.of_nat i; point_customdata := cd |} ] |}.

Section startup.
Context {builtins : Builtins} {pandas : Pandas} {utils : Utils}.

(** [WorldMap.__init__], up to the Dash layout. *)
Definition WorldMap_init (controller : option (list (string * string)))
    : result WorldMap :=
  data ← create_df "../data/export/";
  Ok {| controller := controller;
        publisher := "visualization/dataset";
        df := data;
        fig := make_world_map_fig data |}.
End startup.

(** The states the callback can run in: the one [__init__] leaves, and
    those reached from it by further callbacks. *)
Inductive reachable {builtins : Builtins} {pandas : Pandas} {utils : Utils}
    : WorldMap → Prop :=
  | reachable_init controller self :
      WorldMap_init controller = Ok self → reachable self
  | reachable_click self clickData :
      reachable self → reachable (select_point clickData self).2.

(** ** Concrete surroundings for the worked examples *)

Definition digit_value (c : ascii) : option Z :=
  let n := Z.of_nat (nat_of_ascii c) in
  if (48 <=? n) && (n <=? 57) then Some (n - 48) else None.

Fixpoint digits_value (acc : Z) (s : string) : option Z :=
  match s with
  | "" => Some acc
  | String c s' => d ← digit_value c; digits_value (10 * acc + d) s'
  end.

(** A non-empty run of decimal digits. *)
Definition natural (s : string) : option Z :=
  match s with
  | "" => None
  | _ => digits_value 0 s
  end.

(** [float(str)] on unsigned decimal integer literals; this instance
    rejects every other string. *)
Definition decimal_literals : Builtins :=
  {| str_to_float := λ s, Z2float <$> natural s |}.

Definition is_leap (y : Z) : bool :=
  ((y mod 4 =? 0) && negb (y mod 100 =? 0)) || (y mod 400 =? 0).

Definition days_in_month (y m : Z) : Z :=
  if m =? 2 then (if is_leap y then 29 else 28)
  else if (m =? 4) || (m =? 6) || (m =? 9) || (m =? 11) then 30
  else 31.

Definition between (lo x hi : Z) : bool := (lo <=? x) && (x <=? hi).

Definition char_at (i : nat) (s : string) (c : ascii) : bool :=
  match String.get i s with
  | Some a => Ascii.eqb a c
  | None => false
  end.

(** [YYYY-MM-DD], optionally followed by [T] or a blank and [HH:MM:SS]. *)
Definition parse_iso8601 (s : string) : option timestamp :=
  y ← natural (substring 0 4 s);
  mo ← natural (substring 5 2 s);
  d ← natural (substring 8 2 s);
  _ ← guard (Is_true (char_at 4 s "-" && char_at 7 s "-"
                      && between 1 mo 12 && between 1 d (days_in_month y mo)));
  if (String.length s =? 10)%nat then
    Some {| year := y; month := mo; day := d; hour := 0; minute := 0; second := 0 |}
  else
    h ← natural (substring 11 2 s);
    mi ← natural (substring 14 2 s);
    se ← natural (substring 17 2 s);
    _ ← guard (Is_true ((String.length s =? 19)%nat
                        && (char_at 10 s "T" || char_at 10 s " ")
                        && char_at 13 s ":" && char_at 16 s ":"
                        && between 0 h 23 && between 0 mi 59 && between 0 se 59));
    Some {| year := y; month := mo; day := d; hour := h; minute := mi; second := se |}.

(** The strings [pd.to_datetime] reads as a missing date. *)
Definition nat_string (s : string) : bool :=
  String.eqb s "NaT" || String.eqb s "nan" || String.eqb s "".

(** The entry [pd.to_datetime] takes the format of the column from: the
    first string that is not read as missing. *)
Definition first_dated (col : list cell) : option string :=
  head (omap (λ c, match c with
                   | CStr s => if nat_string s then None else Some s
                   | _ => None
                   end) col).

(** Two ISO 8601 strings are in one format: the same length, and the
    same separator between date and time. *)
Definition same_layout (s t : string) : bool :=
  (String.length s =? String.length t)%nat
  && match String.get 10 s, String.get 10 t with
     | Some a, Some b => Ascii.eqb a b
     | None, None => true
     | _, _ => false
     end.

(** [pd.to_datetime] on a column of ISO 8601 strings; this instance
    rejects every entry that is not a string. *)
Definition iso8601_entry (col : list cell) (c : cell) : result (option timestamp) :=
  match c with
  | CStr s =>
      if nat_string s then Ok None
      else
        match parse_iso8601 s, first_dated col with
        | Some t, Some s0 => if same_layout s s0 then Ok (Some t) else Raise ValueError
        | _, _ => Raise ValueError
        end
  | _ => Raise TypeError
  end.

(** The dtype pandas infers for a column without strings is float64 as
    soon as it holds a float, or an int beside a [None]. *)
Definition float_column (col : list cell) : bool :=
  forallb (λ c, match c with CStr _ => false | _ => true end) col
  && (existsb (λ c, match c with CFloat _ | CNaN => true | _ => false end) col
      || (existsb (λ c, match c with CNone => true | _ => false end) col
          && existsb (λ c, match c with CInt _ => true | _ => false end) col)).

Definition to_float64 (c : cell) : cell :=
  match c with
  | CInt z => CFloat (Z2float z)
  | CNone | CNaN => CFloat nan
  | _ => c
  end.

Definition dtype_entry (col : list cell) (c : cell) : cell :=
  if float_column col then to_float64 c else c.

Definition iso8601_dates : Pandas :=
  {| frame_entry := dtype_entry; to_datetime_entry := iso8601_entry |}.

(** An export directory given by its listing: each source path with the
    table and the object count the loader returns for it. *)
Definition listing (files : list (string * (table * Z))) : Utils :=
  {| metadatas := unit;
     find_tsv_files := λ _, Ok (files.*1);
     load_dataframe := λ tsv,
       match list_find (λ f, f.1 = tsv) files with
       | Some (_, (_, (df_temp, nb_objects))) => Ok (df_temp, nb_objects, ())
       | None => Raise KeyError
       end |}.

(** A table with a date and a position. *)
Definition acquisition (datetime : string) : table :=
  {[ "acq_local_datetime" := [CStr datetime];
     "object_lat" := [CFloat 48.5];
     "object_lon" := [CFloat (-4.25)] ]}.

(** Two archives holding a sample of the same name, taken at the same
    place on the same day, two hours apart. *)
Definition two_archives : Utils :=
  listing
    [ ("../data/export/a.zip:sample_001.tsv", (acquisition "2023-07-04T10:15:00", 100));
      ("../data/export/b.zip:sample_001.tsv", (acquisition "2023-07-04T12:15:00", 100)) ].

(** A sample without coordinates: the position columns hold nan. *)
Definition unlocated : table :=
  {[ "acq_local_datetime" := [CStr "2023-07-04T10:15:00"];
     "object_lat" := [CFloat nan];
     "object_lon" := [CFloat nan] ]}.

Definition unlocated_sample : sample :=
  {| sample_filename := "sample_001.tsv"; Objects_ml := PyFloat 0.1;
     date := CStr "2023-07-04T10:15:00"; lat := CFloat nan; lon := CFloat nan |}.

(** The same export found in two archives. *)
Definition same_export_twice : Utils :=
  listing
    [ ("../data/export/a.zip:sample_001.tsv", (unlocated, 100));
      ("../data/export/b.zip:sample_001.tsv", (unlocated, 100)) ].

(** An export whose date column holds free text. *)
Definition undated_export : Utils :=
  listing [ ("../data/export/sample_002.tsv", (acquisition "yesterday", 100)) ].

(** An export whose date column holds the text [NaT]. *)
Definition export_dated_NaT : Utils :=
  listing [ ("../data/export/sample_003.tsv", (acquisition "NaT", 100)) ].

(** Two exports, one dated to the second and one to the day. *)
Definition mixed_formats : Utils :=
  listing
    [ ("../data/export/sample_004.tsv", (acquisition "2023-07-04T10:15:00", 100));
      ("../data/export/sample_005.tsv", (acquisition "2023-07-05", 100)) ].

(** An export dated to the second. *)
Definition dated_to_the_second : Utils :=
  listing [ ("../data/export/sample_006.tsv", (acquisition "2023-07-04T10:15:00", 100)) ].

(** The second of the two alone. *)
Definition dated_to_the_day : Utils :=
  listing [ ("../data/export/sample_005.tsv", (acquisition "2023-07-05", 100)) ].

(** A sample whose position columns are text columns with an empty
    first row: both cells are [np.nan] itself. *)
Definition unlocated_text_sample : sample :=
  {| sample_filename := "sample_001.tsv"; Objects_ml := PyFloat 0.1;
     date := CStr "2023-07-04T10:15:00"; lat := CNaN; lon := CNaN |}.

(** The table of the worked concentration example. *)
Definition example_table : table :=
  {[ "acq_imaged_volume" := [CFloat 10];
     "sample_dilution_factor" := [CFloat 2];
     "sample_concentrated_sample_volume" := [CFloat 5];
     "sample_total_volume" := [CFloat 25] ]}.

(** ** Notions for the further properties *)

(** The columns [build_record] reads, lines 56-59 and 67-69. *)
Definition volume_columns : list string :=
  [ "acq_imaged_volume"; "sample_dilution_factor";
    "sample_concentrated_sample_volume"; "sample_total_volume" ].

Definition read_columns : list string :=
  (volume_columns ++ [ "acq_local_datetime"; "object_lat"; "object_lon" ])%list.

(** The number is a float nan. *)
Definition nan_num (x : num) : bool :=
  match x with
  | PyFloat f => is_nan f
  | PyInt _ => false
  end.

(** The opacities of line 156:
    [[1 if i == pointNumber else 0.5 for i in range(rows)]]. *)
Definition highlight (pointNumber : Z) (rows : nat) : list num :=
  (λ i : nat, if Z.of_nat i =? pointNumber then PyInt 1 else PyFloat 0.5)
  <$> seq 0 rows.

(** A discovery that names a path the loader cannot read. *)
Definition unreadable_source : Utils :=
  {| metadatas := unit;
     find_tsv_files := λ _, Ok ["../data/export/broken.tsv"];
     load_dataframe := λ _, Raise ValueError |}.

(** * Properties *)

(** ** The model on small inputs *)

Example split_overlapping : py_split "aa" "aaa" = Ok [""; "a"].
Proof. reflexivity. Qed.

Example split_trailing : py_split "zip:" "a.zip:" = Ok ["a."; ""].
Proof. reflexivity. Qed.

Example basename_of_directory : basename "../data/export/" = "".
Proof. reflexivity. Qed.

Example filename_of_nested :
  filename_of "../data/export/a.zip:inner.zip:sample_001.tsv" = Ok "sample_001.tsv".
Proof. reflexivity. Qed.

Example get_value_keeps_nan :
  get_value (builtins:=decimal_literals)
    {[ "acq_imaged_volume" := [CFloat nan] ]} "acq_imaged_volume" (PyInt 1)
  = Ok (PyFloat nan).
Proof. reflexivity. Qed.

Example get_value_parses_text :
  get_value (builtins:=decimal_literals)
    {[ "acq_imaged_volume" := [CStr "10"; CStr "10"] ]} "acq_imaged_volume" (PyInt 1)
  = Ok (PyFloat 10).
Proof. reflexivity. Qed.

Example float_of_large_int :
  py_float (builtins:=decimal_literals) (CInt (10 ^ 400)) = Raise OverflowError.
Proof. by vm_compute. Qed.

Example shared_nan_is_one_object :
  sample_eq unlocated_text_sample unlocated_text_sample = true
  ∧ dedup [unlocated_text_sample; unlocated_text_sample] = [unlocated_text_sample]
  ∧ sample_eq unlocated_sample unlocated_sample = false.
Proof. by vm_compute. Qed.

Example frame_of_int_and_None :
  DataFrame (pandas:=iso8601_dates)
    [ {| sample_filename := "s.tsv"; Objects_ml := PyFloat 0.1;
         date := CNone; lat := CInt 45; lon := CNone |};
      {| sample_filename := "t.tsv"; Objects_ml := PyFloat 0.1;
         date := CNone; lat := CNone; lon := CNone |} ]
  = [ {| sample_filename := "s.tsv"; Objects_ml := PyFloat 0.1;
         date := CNone; lat := CFloat 45; lon := CNone |};
      {| sample_filename := "t.tsv"; Objects_ml := PyFloat 0.1;
         date := CNone; lat := CFloat nan; lon := CNone |} ].
Proof. by vm_compute. Qed.

Example defaults_concentration :
  Objects_ml <$> build_record (builtins:=decimal_literals) ∅ 100 "sample_001.tsv"
  = Ok (PyFloat 0.1).
Proof. by vm_compute. Qed.

Example select_point_highlights :
  let self := {| controller := Some []; publisher := "visualization/dataset";
                 df := [unlocated_sample; unlocated_sample];
                 fig := make_world_map_fig [unlocated_sample; unlocated_sample] |} in
  marker_opacity (fig (select_point (click_on (fig self) 1) self).2)
  = [PyFloat 0.5; PyInt 1].
Proof. reflexivity. Qed.

(** ** The extractor *)

Section extractor_facts.
Context {builtins : Builtins}.

(** [float()] raises [OverflowError] on an over-large int and on
    nothing else. *)
Lemma py_float_raises (x : cell) (e : exn) :
  py_float x = Raise e →
  ValueError_or_TypeError e = true
  ∨ (e = OverflowError ∧ ∃ z, x = CInt z ∧ is_infinity (Z2float z) = true).
Proof.
  destruct x as [f|z|s| |]; simpl; try discriminate.
  - unfold int_to_float. destruct (is_infinity (Z2float z)) eqn:Hinf; [|done].
    intros [= <-]. right. split; [done|]. by exists z.
  - destruct (str_to_float s); simpl; [discriminate|].
    intros [= <-]. by left.
  - intros [= <-]. by left.
Qed.

Lemma py_float_overflow (z : Z) :
  is_infinity (Z2float z) = true → py_float (CInt z) = Raise OverflowError.
Proof. simpl. unfold int_to_float. by intros ->. Qed.

(** The ways [get_value] can end. *)
Lemma get_value_cases (df : table) (column : string) (default : num) :
  get_value df column default = Ok default
  ∨ (∃ first rest value,
       df !! column = Some (first :: rest) ∧ py_float first = Ok value
       ∧ float_bool value = true
       ∧ get_value df column default = Ok (PyFloat value))
  ∨ (∃ z rest,
       df !! column = Some (CInt z :: rest) ∧ is_infinity (Z2float z) = true
       ∧ get_value df column default = Raise OverflowError).
Proof.
  unfold get_value.
  destruct (df !! column) as [[|first rest]|] eqn:Hcol; [by left| |by left].
  destruct (py_float first) as [value|e] eqn:Hfloat; simpl.
  - destruct (float_bool value) eqn:Hbool; [|by left].
    right; left. by exists first, rest, value.
  - destruct (py_float_raises _ _ Hfloat) as [->|(-> & z & -> & Hinf)]; [by left|].
    right; right. by exists z, rest.
Qed.

Lemma get_value_raise (df : table) (column : string) (default : num) (e : exn) :
  get_value df column default = Raise e → e = OverflowError.
Proof.
  destruct (get_value_cases df column default)
    as [->|[(? & ? & ? & _ & _ & _ & ->)|(? & ? & _ & _ & ->)]]; [done..|].
  by intros [= <-].
Qed.

Lemma get_value_truthy (df : table) (column : string) (default v : num) :
  truthy default = true → get_value df column default = Ok v → truthy v = true.
Proof.
  intros Hdefault.
  destruct (get_value_cases df column default)
    as [->|[(? & ? & value & _ & _ & Hvalue & ->)|(? & ? & _ & _ & ->)]];
    [intros [= <-]; done..|done].
Qed.

(** C3, amended: when the column is absent, or has no row, or [float()]
    of its first row raises [ValueError] or [TypeError], [get_value]
    returns the default; the call raises exactly when the first row is
    an int too large for a float, and what escapes then is the
    [OverflowError] of [float()], which line 47 does not catch. *)
Theorem get_value_default_on_missing (df : table) (column : string) (default : num) :
  (df !! column = None
   ∨ df !! column = Some []
   ∨ (∃ first rest e, df !! column = Some (first :: rest)
                      ∧ py_float first = Raise e
                      ∧ ValueError_or_TypeError e = true) →
   get_value df column default = Ok default)
  ∧ (∀ e, get_value df column default = Raise e
          ↔ e = OverflowError
            ∧ ∃ z rest, df !! column = Some (CInt z :: rest)
                        ∧ is_infinity (Z2float z) = true).
Proof.
  split.
  - unfold get_value.
    intros [->|[->|(first & rest & e & -> & Hraise & Hcaught)]]; [done..|].
    rewrite Hraise. simpl. by rewrite Hcaught.
  - intros e. split.
    + destruct (get_value_cases df column default)
        as [->|[(? & ? & ? & _ & _ & _ & ->)|(z & rest & Hcol & Hinf & ->)]]; [done..|].
      intros [= <-]. split; [done|]. by exists z, rest.
    + intros (-> & z & rest & Hcol & Hinf).
      unfold get_value. by rewrite Hcol, (py_float_overflow z Hinf).
Qed.

(** C4: when the first row parses to a number equal to zero,
    [get_value] returns the default; and with a non-zero default no
    call returns a zero. *)
Theorem get_value_zero_is_default (df : table) (column : string) (default : num) :
  (∀ first rest value,
     df !! column = Some (first :: rest) → py_float first = Ok value →
     (value =? 0)%float = true →
     get_value df column default = Ok default)
  ∧ (truthy default = true →
     ∀ v, get_value df column default = Ok v →
          v ≠ PyInt 0 ∧ v ≠ PyFloat 0 ∧ v ≠ PyFloat (-0) ∧ truthy v = true).
Proof.
  split.
  - intros first rest value Hcol Hfloat Hzero.
    unfold get_value. rewrite Hcol, Hfloat. simpl.
    unfold float_bool. by rewrite Hzero.
  - intros Hdefault v Hv.
    pose proof (get_value_truthy _ _ _ _ Hdefault Hv) as Htruthy.
    repeat split; try done; intros ->; vm_compute in Htruthy; discriminate.
Qed.
End extractor_facts.

Lemma get_value_default_on_missing_witness :
  get_value (builtins:=decimal_literals)
    {[ "acq_imaged_volume" := [CStr "n/a"] ]} "acq_imaged_volume" (PyInt 1)
  = Ok (PyInt 1)
  ∧ get_value (builtins:=decimal_literals)
      {[ "acq_imaged_volume" := [CStr "n/a"] ]} "sample_total_volume" (PyInt 1)
    = Ok (PyInt 1)
  ∧ get_value (builtins:=decimal_literals)
      {[ "acq_imaged_volume" := [CNone] ]} "acq_imaged_volume" (PyInt 1)
    = Ok (PyInt 1).
Proof.
  split; [|split].
  - apply (get_value_default_on_missing (builtins:=decimal_literals)).
    right; right. exists (CStr "n/a"), [], ValueError. repeat split; reflexivity.
  - apply (get_value_default_on_missing (builtins:=decimal_literals)).
    left. reflexivity.
  - apply (get_value_default_on_missing (builtins:=decimal_literals)).
    right; right. exists CNone, [], TypeError. repeat split; reflexivity.
Defined.

Lemma get_value_default_on_missing_counterexample :
  py_float (builtins:=decimal_literals) (CInt (10 ^ 400)) = Raise OverflowError
  ∧ get_value (builtins:=decimal_literals)
      {[ "acq_imaged_volume" := [CInt (10 ^ 400)] ]} "acq_imaged_volume" (PyInt 1)
    = Raise OverflowError.
Proof. split; by vm_compute. Qed.

Lemma get_value_zero_is_default_witness :
  get_value (builtins:=decimal_literals)
    {[ "sample_total_volume" := [CStr "0"; CStr "0"] ]} "sample_total_volume" (PyInt 1)
  = Ok (PyInt 1)
  ∧ PyInt 1 ≠ PyFloat 0.
Proof.
  destruct (get_value_zero_is_default (builtins:=decimal_literals)
    {[ "sample_total_volume" := [CStr "0"; CStr "0"] ]} "sample_total_volume" (PyInt 1))
    as [Hzero Hnonzero].
  assert (get_value (builtins:=decimal_literals)
            {[ "sample_total_volume" := [CStr "0"; CStr "0"] ]}
            "sample_total_volume" (PyInt 1) = Ok (PyInt 1)) as Hvalue.
  { apply (Hzero (CStr "0") [CStr "0"] 0%float); reflexivity. }
  split; [exact Hvalue|].
  apply (Hnonzero eq_refl (PyInt 1) Hvalue).
Defined.

(** ** Binary64 arithmetic never flushes a scaled non-zero to zero *)

Section binary64.
Lemma digits2_pos_size (p : positive) : digits2_pos p = Pos.size p.
Proof. induction p; simpl; congruence. Qed.

Lemma digits2_pos_lower (p : positive) : 2 ^ (Z.pos (digits2_pos p) - 1) ≤ Z.pos p.
Proof.
  rewrite digits2_pos_size.
  pose proof (Pos.size_le p) as Hle.
  apply Pos2Z.pos_le_pos in Hle. rewrite Pos2Z.inj_pow in Hle.
  replace (Z.pos (Pos.size p)) with (Z.succ (Z.pos (Pos.size p) - 1)) in Hle by lia.
  rewrite Z.pow_succ_r in Hle by lia. lia.
Qed.

Lemma shr_1_div2 (mrs : shr_record) :
  0 ≤ shr_m mrs → shr_m (shr_1 mrs) = shr_m mrs / 2.
Proof.
  destruct mrs as [m r s]; simpl. intros Hm.
  destruct m as [|[p|p|]|p]; simpl shr_m; [done| | |done|lia].
  - apply Z.div_unique with 1; lia.
  - apply Z.div_unique with 0; lia.
Qed.

Lemma iter_shr_1_div (n : positive) (mrs : shr_record) :
  0 ≤ shr_m mrs → shr_m (SpecFloat.iter_pos shr_1 n mrs) = shr_m mrs / 2 ^ Z.pos n.
Proof.
  revert mrs. induction n as [n IH|n IH|]; intros mrs Hm; simpl SpecFloat.iter_pos.
  - assert (0 ≤ shr_m (shr_1 mrs)) as H1.
    { rewrite shr_1_div2 by done. apply Z.div_pos; lia. }
    assert (0 ≤ shr_m (SpecFloat.iter_pos shr_1 n (shr_1 mrs))) as H2.
    { rewrite IH by done. apply Z.div_pos; lia. }
    rewrite !IH, shr_1_div2 by done.
    rewrite !Z.div_div by lia. f_equal.
    rewrite <- Z.pow_add_r, <- Z.pow_succ_r by lia. f_equal. lia.
  - assert (0 ≤ shr_m (SpecFloat.iter_pos shr_1 n mrs)) as H2.
    { rewrite IH by done. apply Z.div_pos; lia. }
    rewrite !IH by done.
    rewrite !Z.div_div by lia. f_equal.
    rewrite <- Z.pow_add_r by lia. f_equal. lia.
  - by rewrite shr_1_div2.
Qed.

Lemma shr_record_of_loc_m m l : shr_m (shr_record_of_loc m l) = m.
Proof. by destruct l as [|[]]. Qed.

Lemma shr_fexp_above_emin (m e : Z) (l : location) :
  above_emin m e →
  above_emin (shr_m (shr_fexp prec emax m e l).1) (shr_fexp prec emax m e l).2.
Proof.
  intros (k & Hk & Hpow & Hemin).
  assert (0 < m) as Hm by (pose proof (Z.pow_pos_nonneg 2 k); lia).
  destruct m as [|p|p]; try lia.
  unfold shr_fexp, shr. simpl Zdigits2.
  set (d := Z.pos (digits2_pos p)).
  pose proof (digits2_pos_lower p) as Hlow. fold d in Hlow.
  destruct (fexp prec emax (d + e) - e) as [|n|n] eqn:Hn; simpl.
  1,3: rewrite shr_record_of_loc_m; by exists k.
  rewrite iter_shr_1_div by (rewrite shr_record_of_loc_m; lia).
  rewrite shr_record_of_loc_m.
  assert (k < d) as Hkd.
  { assert (Z.pos p < 2 ^ d) as Hup.
    { unfold d. rewrite digits2_pos_size.
      pose proof (Pos.size_gt p) as Hgt.
      apply Pos2Z.pos_lt_pos in Hgt. by rewrite Pos2Z.inj_pow in Hgt. }
    apply (Z.pow_lt_mono_r_iff 2); lia. }
  assert (Z.pos n ≤ d - 1) as Hnd.
  { unfold fexp, emin, prec, emax in *. lia. }
  exists (d - 1 - Z.pos n). split; [lia|]. split; [|lia].
  rewrite Z.pow_sub_r by lia.
  apply Z.div_le_mono; [|done]. apply Z.pow_pos_nonneg; lia.
Qed.

Lemma round_nearest_even_ge (m : Z) (l : location) : m ≤ round_nearest_even m l.
Proof. destruct l as [|[]]; simpl; try lia. destruct (Z.even m); lia. Qed.

Lemma binary_round_aux_not_zero (s : bool) (m e : Z) (l : location) :
  above_emin m e →
  SFeqb (binary_round_aux prec emax s m e l) (S754_zero false) = false.
Proof.
  intros Hm. unfold binary_round_aux.
  pose proof (shr_fexp_above_emin m e l Hm) as H1.
  destruct (shr_fexp prec emax m e l) as [mrs' e']. simpl in H1.
  assert (above_emin (round_nearest_even (shr_m mrs') (loc_of_shr_record mrs')) e') as H2.
  { destruct H1 as (k & ? & ? & ?). exists k.
    pose proof (round_nearest_even_ge (shr_m mrs') (loc_of_shr_record mrs')). lia. }
  pose proof (shr_fexp_above_emin _ _ loc_Exact H2) as H3.
  destruct (shr_fexp prec emax _ e' loc_Exact) as [mrs'' e'']. simpl in H3.
  destruct H3 as (k & Hk & Hpow & _).
  pose proof (Z.pow_pos_nonneg 2 k).
  destruct (shr_m mrs'') as [|q|q]; try lia.
  case_match; by destruct s.
Qed.

(** Scaling by a float of magnitude at least one never flushes a
    non-zero float to zero. *)
Lemma SFmul_not_zero (x : spec_float) (sy : bool) (my : positive) (ey k : Z) :
  valid_binary x = true →
  0 ≤ k → 2 ^ k ≤ Z.pos my → 0 ≤ k + ey →
  SFeqb x (S754_zero false) = false →
  SFeqb (SFmul prec emax x (S754_finite sy my ey)) (S754_zero false) = false.
Proof.
  intros Hvalid Hk Hmy Hey Hx.
  destruct x as [sx|sx| |sx mx ex].
  - by vm_compute in Hx.
  - by destruct sx, sy.
  - done.
  - simpl. apply binary_round_aux_not_zero.
    simpl in Hvalid. unfold bounded, canonical_mantissa in Hvalid.
    apply andb_prop in Hvalid as [Hcanon _]. apply Z.eqb_eq in Hcanon.
    exists k. split; [done|]. split.
    + rewrite Pos2Z.inj_mul. nia.
    + unfold fexp, emin, prec, emax in *. lia.
Qed.

Lemma float_mul_1000_not_zero (f : float) :
  (f =? 0)%float = false → (f * 1000 =? 0)%float = false.
Proof.
  rewrite !FloatAxioms.eqb_spec, FloatAxioms.mul_spec.
  change (Prim2SF 0) with (S754_zero false).
  replace (Prim2SF 1000) with (S754_finite false 8796093022208000 (-43))
    by (by vm_compute).
  apply (SFmul_not_zero _ _ _ _ 52); [apply Prim2SF_valid|lia|by vm_compute|lia].
Qed.
End binary64.

(** ** The builder *)

Lemma bind_Ok {A B} (a : A) (f : A → result B) : Ok a ≫= f = f a.
Proof. reflexivity. Qed.

Lemma bind_raise {A B} (m : result A) (f : A → result B) (e : exn) :
  m ≫= f = Raise e → m = Raise e ∨ ∃ a, m = Ok a ∧ f a = Raise e.
Proof.
  destruct m as [a|e']; intros Hr; [right; by exists a|].
  injection Hr as ->. by left.
Qed.

Lemma int_to_float_raise (z : Z) (e : exn) :
  int_to_float z = Raise e → e = OverflowError.
Proof.
  unfold int_to_float. destruct (is_infinity (Z2float z)); by intros [= <-].
Qed.

Lemma as_float_raise (x : num) (e : exn) :
  as_float x = Raise e → e = OverflowError.
Proof. destruct x; simpl; [apply int_to_float_raise|done]. Qed.

Lemma fmap_raise {A B} (f : A → B) (m : result A) (e : exn) :
  f <$> m = Raise e → m = Raise e.
Proof. destruct m; intros Hr; [done|]. by injection Hr as ->. Qed.

Lemma py_mul_raise (x y : num) (e : exn) :
  py_mul x y = Raise e → e = OverflowError.
Proof.
  destruct x as [a|f], y as [b|g]; unfold py_mul; first done.
  all: intros Hr; repeat (apply bind_raise in Hr as [Hr|(? & _ & Hr)]);
    try done; by eapply as_float_raise.
Qed.

Lemma int_truediv_raise (a b : Z) (e : exn) :
  int_truediv a b = Raise e →
  e = OverflowError ∨ (e = ZeroDivisionError ∧ b = 0).
Proof.
  unfold int_truediv. destruct (b =? 0) eqn:Hb.
  - intros [= <-]. right. split; [done|lia].
  - destruct (a =? 0); [done|].
    destruct (SFdiv_core_binary _ _ _ _ _ _) as [[q e'] l].
    case_match; [|done]. intros [= <-]. by left.
Qed.

Lemma float_truediv_raise (a b : float) (e : exn) :
  float_truediv a b = Raise e → e = ZeroDivisionError ∧ (b =? 0)%float = true.
Proof.
  unfold float_truediv. destruct (b =? 0)%float; [|done]. by intros [= <-].
Qed.

Lemma py_truediv_raise (x y : num) (e : exn) :
  py_truediv x y = Raise e →
  e = OverflowError ∨ (e = ZeroDivisionError ∧ zero_divisor y).
Proof.
  assert (∀ a : result float,
    (a' ← a; b' ← as_float y; PyFloat <$> float_truediv a' b') = Raise e →
    (a = Raise e → e = OverflowError) →
    e = OverflowError ∨ (e = ZeroDivisionError ∧ zero_divisor y)) as Hfloat.
  { intros a Hr Ha.
    apply bind_raise in Hr as [Hr|(a' & _ & Hr)]; [left; by apply Ha|].
    apply bind_raise in Hr as [Hr|(b' & Hy & Hr)]; [left; by eapply as_float_raise|].
    apply fmap_raise, float_truediv_raise in Hr as [-> Hzero].
    right. split; [done|]. right. eauto. }
  destruct x as [a|f], y as [b|g]; unfold py_truediv.
  - intros [?|[-> ->]]%fmap_raise%int_truediv_raise; [by left|].
    right. split; [done|]. by left.
  - intros Hr. apply (Hfloat _ Hr). apply as_float_raise.
  - intros Hr. by apply (Hfloat _ Hr).
  - intros Hr. by apply (Hfloat _ Hr).
Qed.

Lemma split_from_not_nil (sep : string) (skip : nat) (s : string) :
  split_from sep skip s ≠ [].
Proof.
  revert skip. induction s as [|c s IH]; intros skip; simpl; [done|].
  destruct skip as [|k]; [|apply IH].
  repeat case_match; done.
Qed.

Lemma filename_of_last (tsv : string) :
  ∃ segs f, split_from "zip:" 0 (basename tsv) = (segs ++ [f])%list
            ∧ filename_of tsv = Ok f.
Proof.
  unfold filename_of, py_split, item_last. simpl.
  destruct (split_from "zip:" 0 (basename tsv)) as [|seg segs] eqn:Hsplit
    using rev_ind; [by apply split_from_not_nil in Hsplit|].
  exists segs, seg. by rewrite last_snoc.
Qed.

Section builder_facts.
Context {builtins : Builtins}.

Lemma get_value_default_1 (df : table) (column : string) (v : num) :
  get_value df column (PyInt 1) = Ok v →
  v = PyInt 1 ∨ ∃ f, v = PyFloat f ∧ (f =? 0)%float = false.
Proof.
  destruct (get_value_cases df column (PyInt 1))
    as [->|[(? & ? & value & _ & _ & Hvalue & ->)|(? & ? & _ & _ & ->)]];
    [intros [= <-]; by left| |done].
  intros [= <-]. right. exists value. split; [done|].
  unfold float_bool in Hvalue. by destruct (value =? 0)%float.
Qed.

Lemma litres_not_zero (sample_total_volume : num) :
  (sample_total_volume = PyInt 1
   ∨ ∃ f, sample_total_volume = PyFloat f ∧ (f =? 0)%float = false) →
  ∃ litres, py_mul sample_total_volume (PyInt 1000) = Ok litres
            ∧ truthy litres = true ∧ ¬ zero_divisor litres.
Proof.
  intros [->|(f & -> & Hf)].
  - exists (PyInt 1000). split; [done|]. split; [done|].
    intros [?|(b & Hb & Hzero)]; [done|].
    vm_compute in Hb. injection Hb as <-. by vm_compute in Hzero.
  - exists (PyFloat (f * 1000)%float).
    pose proof (float_mul_1000_not_zero f Hf) as Hmul.
    split; [done|]. split.
    + simpl. unfold float_bool. by rewrite Hmul.
    + intros [|(b & [= <-] & ?)]; [done|congruence].
Qed.

Lemma build_record_raise (df_temp : table) (nb_objects : Z) (tsv : string) (e : exn) :
  build_record df_temp nb_objects tsv = Raise e → e = OverflowError.
Proof.
  unfold build_record. intros Hr.
  apply bind_raise in Hr as [Hr|(iv & Hiv & Hr)]; [by eapply get_value_raise|].
  apply bind_raise in Hr as [Hr|(dil & Hdil & Hr)]; [by eapply get_value_raise|].
  apply bind_raise in Hr as [Hr|(csv & Hcsv & Hr)]; [by eapply get_value_raise|].
  apply bind_raise in Hr as [Hr|(tv & Htv & Hr)]; [by eapply get_value_raise|].
  destruct (filename_of_last tsv) as (segs & f & _ & Hf).
  rewrite Hf, bind_Ok in Hr.
  apply bind_raise in Hr as [Hr|(per_volume & _ & Hr)].
  { apply py_truediv_raise in Hr as [?|[_ Hzero]]; [done|].
    apply get_value_default_1 in Hiv as [->|(g & -> & Hg)];
      destruct Hzero as [|(b & [= <-] & ?)]; done || congruence. }
  apply bind_raise in Hr as [Hr|(diluted & _ & Hr)]; [by eapply py_mul_raise|].
  apply get_value_default_1, litres_not_zero in Htv as (litres & Hmul & _ & Hlitres).
  rewrite Hmul, bind_Ok in Hr.
  apply bind_raise in Hr as [Hr|(fraction & _ & Hr)].
  { by apply py_truediv_raise in Hr as [?|[_ Hzero]]. }
  apply bind_raise in Hr as [Hr|(objects_ml & _ & Hr)]; [by eapply py_mul_raise|done].
Qed.
End builder_facts.

Section concentration_facts.
Context {builtins : Builtins}.

(** C1, amended: the ["Objects/ml"] entry of the built record is the
    specification's formula on the object count and the four scalars
    extracted with default 1, operators in the written order; on
    objectCount=100, imagedVolume=10, dilutionFactor=2,
    concentratedSampleVolume=5, totalSampleVolume=25 it is 0.004. *)
Theorem build_record_concentration (df_temp : table) (nb_objects : Z) (tsv : string) :
  Objects_ml <$> build_record df_temp nb_objects tsv
  = (imagedVolume ← get_value df_temp "acq_imaged_volume" (PyInt 1);
     dilutionFactor ← get_value df_temp "sample_dilution_factor" (PyInt 1);
     concentratedSampleVolume ←
       get_value df_temp "sample_concentrated_sample_volume" (PyInt 1);
     totalSampleVolume ← get_value df_temp "sample_total_volume" (PyInt 1);
     concentration (PyInt nb_objects) imagedVolume dilutionFactor
       concentratedSampleVolume totalSampleVolume)
  ∧ Objects_ml <$> build_record example_table 100 "archive.zip:sample_001.tsv"
    = Ok (PyFloat 0.004).
Proof.
  split; [|by vm_compute].
  unfold build_record, concentration.
  destruct (get_value df_temp "acq_imaged_volume" _) as [iv|]; [|done].
  destruct (get_value df_temp "sample_dilution_factor" _) as [dil|]; [|done].
  destruct (get_value df_temp "sample_concentrated_sample_volume" _) as [csv|]; [|done].
  destruct (get_value df_temp "sample_total_volume" _) as [tv|]; [|done].
  destruct (filename_of_last tsv) as (segs & f & _ & ->).
  rewrite !bind_Ok.
  destruct (py_truediv (PyInt nb_objects) iv) as [per_volume|]; [|done].
  rewrite !bind_Ok.
  destruct (py_mul per_volume dil) as [diluted|]; [|done].
  rewrite !bind_Ok.
  destruct (py_mul tv (PyInt 1000)) as [litres|]; [|done].
  rewrite !bind_Ok.
  destruct (py_truediv csv litres) as [fraction|]; [|done].
  rewrite !bind_Ok.
  by destruct (py_mul diluted fraction).
Qed.

(** C9: with a non-zero default [get_value] never returns a zero; so
    with the builder's default 1 the imaged volume and the total
    volume times 1000 are non-zero whenever the two scalars are
    extracted (the extraction itself ends in a value or in the
    [OverflowError] of [float()]), and [build_record] never raises
    [ZeroDivisionError]. *)
Theorem denominators_not_zero (df_temp : table) (nb_objects : Z) (tsv : string) :
  (∀ column default v,
     truthy default = true → get_value df_temp column default = Ok v →
     truthy v = true)
  ∧ ((∃ acq_imaged_volume sample_total_volume litres,
        get_value df_temp "acq_imaged_volume" (PyInt 1) = Ok acq_imaged_volume
        ∧ get_value df_temp "sample_total_volume" (PyInt 1) = Ok sample_total_volume
        ∧ py_mul sample_total_volume (PyInt 1000) = Ok litres
        ∧ truthy acq_imaged_volume = true ∧ ¬ zero_divisor acq_imaged_volume
        ∧ truthy litres = true ∧ ¬ zero_divisor litres)
     ∨ get_value df_temp "acq_imaged_volume" (PyInt 1) = Raise OverflowError
     ∨ get_value df_temp "sample_total_volume" (PyInt 1) = Raise OverflowError)
  ∧ (∀ acq_imaged_volume sample_total_volume,
       get_value df_temp "acq_imaged_volume" (PyInt 1) = Ok acq_imaged_volume →
       get_value df_temp "sample_total_volume" (PyInt 1) = Ok sample_total_volume →
       ∃ litres,
         py_mul sample_total_volume (PyInt 1000) = Ok litres
         ∧ truthy acq_imaged_volume = true ∧ ¬ zero_divisor acq_imaged_volume
         ∧ truthy litres = true ∧ ¬ zero_divisor litres)
  ∧ build_record df_temp nb_objects tsv ≠ Raise ZeroDivisionError.
Proof.
  assert (∀ iv tv,
    get_value df_temp "acq_imaged_volume" (PyInt 1) = Ok iv →
    get_value df_temp "sample_total_volume" (PyInt 1) = Ok tv →
    ∃ litres,
      py_mul tv (PyInt 1000) = Ok litres
      ∧ truthy iv = true ∧ ¬ zero_divisor iv
      ∧ truthy litres = true ∧ ¬ zero_divisor litres) as Hdenominators.
  { intros iv tv Hiv Htv.
    destruct (litres_not_zero tv) as (litres & Hmul & Htruthy & Hlitres);
      [by eapply get_value_default_1|].
    exists litres. repeat split; try done.
    + exact (get_value_truthy df_temp _ (PyInt 1) iv eq_refl Hiv).
    + apply get_value_default_1 in Hiv as [->|(g & -> & Hg)];
        intros [?|(b & [= <-] & ?)]; done || congruence. }
  split; [|split; [|split]].
  - intros column default v. apply get_value_truthy.
  - destruct (get_value df_temp "acq_imaged_volume" (PyInt 1)) as [iv|e] eqn:Hiv.
    2: { right; left. by rewrite (get_value_raise _ _ _ _ Hiv). }
    destruct (get_value df_temp "sample_total_volume" (PyInt 1)) as [tv|e] eqn:Htv.
    2: { right; right. by rewrite (get_value_raise _ _ _ _ Htv). }
    left. destruct (Hdenominators iv tv eq_refl eq_refl) as (litres & ?).
    by exists iv, tv, litres.
  - intros iv tv Hiv Htv. rewrite Hiv, Htv in Hdenominators. by apply Hdenominators.
  - by intros ?%build_record_raise.
Qed.
End concentration_facts.

Lemma build_record_concentration_counterexample :
  Objects_ml <$> build_record (builtins:=decimal_literals) example_table 100
                   "archive.zip:sample_001.tsv"
  = Ok (PyFloat 0.004)
  ∧ num_eq (PyFloat 0.004) (PyFloat 0.008) = false.
Proof. split; by vm_compute. Qed.

Lemma denominators_not_zero_witness :
  get_value (builtins:=decimal_literals)
    {[ "sample_total_volume" := [CFloat 0x1p-1074] ]} "sample_total_volume" (PyInt 1)
  = Ok (PyFloat 0x1p-1074)
  ∧ truthy (PyFloat 0x1p-1074) = true
  ∧ py_mul (PyFloat 0x1p-1074) (PyInt 1000) = Ok (PyFloat 0x1.f4p-1065).
Proof.
  split; [reflexivity|]. split; [|by vm_compute].
  destruct (denominators_not_zero (builtins:=decimal_literals)
    {[ "sample_total_volume" := [CFloat 0x1p-1074] ]} 1 "a.tsv") as [Htruthy _].
  apply (Htruthy "sample_total_volume" (PyInt 1)); reflexivity.
Defined.

(** ** File names *)

Section split_facts.
Local Open Scope string_scope.

Lemma string_app_cons (x : ascii) (a b : string) :
  String x a ++ b = String x (a ++ b).
Proof. reflexivity. Qed.

Lemma string_app_assoc (a b c : string) : (a ++ b) ++ c = a ++ b ++ c.
Proof.
  induction a as [|x a IH]; [done|].
  rewrite !string_app_cons. by rewrite IH.
Qed.

Lemma string_app_length (a b : string) :
  String.length (a ++ b) = (String.length a + String.length b)%nat.
Proof.
  induction a as [|x a IH]; [done|].
  rewrite string_app_cons. simpl. by rewrite IH.
Qed.

Lemma prefix_app (sep s : string) :
  String.prefix sep s = true → ∃ b, s = sep ++ b.
Proof.
  revert s. induction sep as [|x sep IH]; intros [|y s]; simpl.
  - by exists "".
  - by exists (String y s).
  - done.
  - destruct (ascii_dec x y) as [->|]; [|done].
    intros [b ->]%IH. by exists b.
Qed.

Lemma app_prefix (sep b : string) : String.prefix sep (sep ++ b) = true.
Proof.
  induction sep as [|x sep IH]; [by destruct b|].
  rewrite string_app_cons. simpl. by destruct (ascii_dec x x).
Qed.

Lemma occurs_cons (sep : string) (c : ascii) (s : string) :
  occurs sep (String c s) →
  String.prefix sep (String c s) = true ∨ occurs sep s.
Proof.
  intros ([|x a] & b & Heq).
  - left. rewrite Heq. exact (app_prefix sep b).
  - right. injection Heq as -> ->. by exists a, b.
Qed.

Lemma split_from_skip (sep a b : string) :
  split_from sep (String.length a) (a ++ b) = split_from sep 0 b.
Proof. induction a as [|x a IH]; simpl; [by destruct b|done]. Qed.

Lemma split_from_prefix (sep : string) (c : ascii) (s : string) :
  String.prefix sep (String c s) = true → sep ≠ "" →
  ∃ b, String c s = sep ++ b
       ∧ split_from sep 0 (String c s) = "" :: split_from sep 0 b.
Proof.
  intros Hprefix Hsep.
  destruct (prefix_app _ _ Hprefix) as [b Hb]. exists b. split; [done|].
  cbn [split_from]. rewrite Hprefix.
  destruct sep as [|x sep]; [done|].
  injection Hb as -> ->.
  cbn [String.length]. rewrite Nat.sub_succ, Nat.sub_0_r.
  by rewrite split_from_skip.
Qed.

(** The last piece of a split: it holds no separator, and it is the
    whole string or what follows a separator. *)
Lemma split_from_last (sep s : string) :
  sep ≠ "" →
  ∃ segs f,
    split_from sep 0 s = (segs ++ [f])%list
    ∧ ¬ occurs sep f
    ∧ ((segs = [] ∧ f = s) ∨ (segs ≠ [] ∧ ∃ pre, s = pre ++ sep ++ f)).
Proof.
  intros Hsep.
  remember (String.length s) as n eqn:Hn. revert s Hn.
  induction (lt_wf n) as [n _ IH]. intros s Hn.
  destruct s as [|c s].
  - exists [], "". split; [done|]. split; [|by left].
    intros ([|x a] & b & Heq); [|done].
    destruct sep; [done|discriminate].
  - destruct (String.prefix sep (String c s)) eqn:Hprefix.
    + destruct (split_from_prefix _ _ _ Hprefix Hsep) as (b & Hb & ->).
      assert (String.length b < n)%nat as Hlt.
      { subst n. rewrite Hb, string_app_length.
        destruct sep; [done|simpl; lia]. }
      destruct (IH _ Hlt b eq_refl) as (segs & f & -> & Hf & Hshape).
      exists ("" :: segs). exists f. split; [done|]. split; [done|]. right.
      split; [done|]. rewrite Hb.
      destruct Hshape as [[-> ->]|(_ & pre & ->)].
      * by exists "".
      * exists (sep ++ pre). by rewrite string_app_assoc.
    + assert (String.length s < n)%nat as Hlt by (subst n; simpl; lia).
      destruct (IH _ Hlt s eq_refl) as (segs & f & Hsplit & Hf & Hshape).
      cbn [split_from]. rewrite Hprefix, Hsplit.
      destruct Hshape as [[-> ->]|(Hsegs & pre & Hpre)].
      * exists []. exists (String c s). split; [done|]. split; [|by left].
        intros [?|?]%occurs_cons; [congruence|done].
      * destruct segs as [|seg segs]; [done|].
        exists (String c seg :: segs). exists f. split; [done|]. split; [done|].
        right. split; [done|]. exists (String c pre). by rewrite Hpre.
Qed.

Lemma slice_from_suffix (i : nat) (s : string) : ∃ pre, s = pre ++ slice_from i s.
Proof.
  revert s. induction i as [|i IH]; intros s; [by exists ""|].
  destruct s as [|c s]; [by exists ""|].
  destruct (IH s) as [pre Hpre]. exists (String c pre).
  rewrite string_app_cons. simpl. by rewrite <- Hpre.
Qed.

Lemma occurs_suffix (sep pre s : string) : occurs sep s → occurs sep (pre ++ s).
Proof.
  intros (a & b & ->). exists (pre ++ a), b. by rewrite string_app_assoc.
Qed.

Lemma not_occurs_empty (c : ascii) (sep : string) : ¬ occurs (String c sep) "".
Proof. intros ([|x a] & b & Heq); discriminate. Qed.

Lemma occurs_tail (sep : string) (c : ascii) (s : string) :
  occurs sep s → occurs sep (String c s).
Proof. intros Hs. by apply (occurs_suffix sep (String c "") s). Qed.

Lemma prefix_char (c a : ascii) (s : string) :
  String.prefix (String c "") (String a s) = true → a = c.
Proof. simpl. destruct (ascii_dec c a) as [->|]; [done|discriminate]. Qed.

(** [rfind] either finds no separator at all, or points at one after
    which there is none. *)
Lemma rfind_slash (p : string) :
  (rfind "/" p = -1 ∧ ¬ occurs "/" p)
  ∨ ((0 ≤ rfind "/" p)%Z
     ∧ ¬ occurs "/" (slice_from (Z.to_nat (rfind "/" p + 1)) p)).
Proof.
  induction p as [|a p IH]; [left; split; [done|apply not_occurs_empty]|].
  cbn [rfind]. destruct IH as [[-> Hnone]|[Hfound Hnone]].
  - change (0 <=? -1)%Z with false. cbn match.
    destruct (Ascii.eqb_spec a "/") as [->|Hne].
    + right. split; [done|]. exact Hnone.
    + left. split; [done|].
      intros [Hprefix%prefix_char|Hp]%occurs_cons; done.
  - destruct (Z.leb_spec 0 (rfind "/" p)) as [_|?]; [|lia].
    right. split; [lia|].
    replace (Z.to_nat (1 + rfind "/" p + 1)) with (S (Z.to_nat (rfind "/" p + 1)))
      by lia.
    exact Hnone.
Qed.

Lemma basename_no_slash (p : string) : ¬ occurs "/" (basename p).
Proof.
  unfold basename. destruct (rfind_slash p) as [[-> Hnone]|[_ Hnone]]; done.
Qed.



End split_facts.


(** ** Removing duplicates *)

Section dedup_facts.
Implicit Types (l data_list : list sample) (i j x : sample).

Lemma py_in_true i l :
  py_in i l = true ↔ ∃ m j, l !! m = Some j ∧ sample_eq j i = true.
Proof.
  unfold py_in. rewrite existsb_exists. split.
  - intros (j & [m Hm]%list_elem_of_In%list_elem_of_lookup & Heq). by exists m, j.
  - intros (m & j & Hm & Heq). exists j. split; [|done].
    apply list_elem_of_In, list_elem_of_lookup. by exists m.
Qed.

Lemma bind_imap_ext {A B C} (f f' : nat → A → C) (g g' : C → list B) (l : list A) :
  (∀ n a, g (f n a) = g' (f' n a)) → imap f l ≫= g = imap f' l ≫= g'.
Proof.
  revert f f'. induction l as [|a l IH]; intros f f' Hfg; [done|].
  rewrite !imap_cons, !bind_cons, Hfg. f_equal.
  apply IH. intros n b. apply Hfg.
Qed.

Lemma dedup_cons x l :
  dedup (x :: l) = ((if py_in x l then [] else [x]) ++ dedup l)%list.
Proof.
  unfold dedup, enumerate. rewrite imap_cons, bind_cons. f_equal.
  apply bind_imap_ext. intros n a. simpl. by rewrite Nat.add_1_r.
Qed.

Lemma dedup_sublist l : dedup l `sublist_of` l.
Proof.
  induction l as [|x l IH]; [done|].
  rewrite dedup_cons. destruct (py_in x l); simpl.
  - by apply sublist_cons.
  - by apply sublist_skip.
Qed.

Lemma survives_false l n i :
  l !! n = Some i →
  (survives l n = false ↔
   ∃ m j, (n < m)%nat ∧ l !! m = Some j ∧ sample_eq j i = true).
Proof.
  intros Hn. unfold survives. rewrite Hn, negb_false_iff, py_in_true.
  split.
  - intros (m & j & Hm & Heq). rewrite lookup_drop in Hm.
    exists (n + 1 + m)%nat, j. split; [lia|done].
  - intros (m & j & Hlt & Hm & Heq). exists (m - (n + 1))%nat, j.
    rewrite lookup_drop. split; [|done].
    by replace (n + 1 + (m - (n + 1)))%nat with m by lia.
Qed.


Lemma Prim2SF_nan (f : float) : is_nan f = true → Prim2SF f = S754_nan.
Proof.
  unfold is_nan. rewrite FloatAxioms.eqb_spec, negb_true_iff.
  unfold SFeqb, SFcompare.
  destruct (Prim2SF f) as [s|s| |s m e]; [by destruct s..|done|].
  change (Pos.compare_cont Eq m m) with (m ?= m)%positive.
  rewrite Z.compare_refl, Pos.compare_refl. by destruct s.
Qed.

Lemma float_eqb_nan (f g : float) : is_nan f = true → (g =? f)%float = false.
Proof.
  intros Hnan. rewrite FloatAxioms.eqb_spec, (Prim2SF_nan f Hnan).
  unfold SFeqb, SFcompare. by destruct (Prim2SF g).
Qed.

End dedup_facts.

(** C2: the same export found in two archives, its position columns
    numeric and empty in the first row, gives two records equal field
    by field; the filter of line 74 removes neither, and the data set
    holds both. *)
Theorem dedup_keeps_nan_duplicates :
  let data_list := [unlocated_sample; unlocated_sample] in
  build_all (builtins:=decimal_literals) (utils:=same_export_twice)
    ["../data/export/a.zip:sample_001.tsv"; "../data/export/b.zip:sample_001.tsv"]
  = Ok data_list
  ∧ data_list !! 0%nat = data_list !! 1%nat
  ∧ survives data_list 0 = true
  ∧ dedup data_list = data_list
  ∧ length <$> create_df (builtins:=decimal_literals) (pandas:=iso8601_dates)
                 (utils:=same_export_twice) "../data/export/"
    = Ok 2%nat.
Proof. by vm_compute. Qed.


(** ** Equality of records is symmetric *)

Lemma SFeqb_sym (x y : spec_float) : SFeqb x y = SFeqb y x.
Proof.
  unfold SFeqb, SFcompare.
  destruct x as [sx|sx| |sx mx ex], y as [sy|sy| |sy my ey]; try done;
    try (by destruct sx, sy); try (by destruct sx); try (by destruct sy).
  change (Pos.compare_cont Eq mx my) with (mx ?= my)%positive.
  change (Pos.compare_cont Eq my mx) with (my ?= mx)%positive.
  rewrite (Z.compare_antisym ex ey), (Pos.compare_antisym mx my).
  destruct sx, sy; try done;
    destruct (ex ?= ey); try done; by destruct (mx ?= my)%positive.
Qed.

Lemma float_eqb_sym (f g : float) : (f =? g)%float = (g =? f)%float.
Proof. rewrite !FloatAxioms.eqb_spec. apply SFeqb_sym. Qed.

Lemma num_eq_sym (x y : num) : num_eq x y = num_eq y x.
Proof.
  destruct x, y; simpl; [apply Z.eqb_sym|done..|apply float_eqb_sym].
Qed.

Lemma cell_eq_sym (x y : cell) : cell_eq x y = cell_eq y x.
Proof.
  destruct x, y; simpl; try done;
    [apply float_eqb_sym|apply Z.eqb_sym|apply String.eqb_sym].
Qed.

Lemma sample_eq_sym (x y : sample) : sample_eq x y = sample_eq y x.
Proof.
  unfold sample_eq.
  by rewrite String.eqb_sym, num_eq_sym, (cell_eq_sym (date x)),
    (cell_eq_sym (lat x)), (cell_eq_sym (lon x)).
Qed.

Section distinct_facts.
Implicit Types (l data_list : list sample) (i j x y : sample).

Lemma py_in_false x l j : py_in x l = false → j ∈ l → sample_eq j x = false.
Proof.
  intros Hin Hj. destruct (sample_eq j x) eqn:Heq; [|done].
  apply list_elem_of_lookup in Hj as [m Hm].
  assert (py_in x l = true) by (apply py_in_true; eauto). congruence.
Qed.

Lemma dedup_later_distinct l (m n : nat) i j :
  (m < n)%nat → dedup l !! m = Some i → dedup l !! n = Some j →
  sample_eq j i = false.
Proof.
  revert m n. induction l as [|x l IH]; intros m n Hlt; [done|].
  rewrite dedup_cons. destruct (py_in x l) eqn:Hin; simpl; [by apply IH|].
  destruct n as [|n]; [lia|]. destruct m as [|m]; simpl.
  - intros [= <-] Hj. apply (py_in_false _ l); [done|].
    eapply elem_of_sublist; [|apply dedup_sublist].
    by eapply list_elem_of_lookup_2.
  - apply IH. lia.
Qed.

(** C8, amended: in the list the filter of line 74 leaves, no two
    records compare equal under [==] across their five fields, and two
    records whose concentrations differ are both kept whatever their
    other fields; the dates are rewritten after that filter. *)
Theorem dedup_pairwise_distinct data_list :
  (∀ (m n : nat) i j,
     m ≠ n → dedup data_list !! m = Some i → dedup data_list !! n = Some j →
     sample_eq i j = false)
  ∧ (∀ x y, num_eq (Objects_ml x) (Objects_ml y) = false →
            sample_eq x y = false ∧ dedup [x; y] = [x; y]).
Proof.
  split.
  - intros m n i j Hne Hi Hj.
    destruct (decide (m < n)%nat) as [Hlt|Hge].
    + rewrite sample_eq_sym. by eapply dedup_later_distinct.
    + eapply (dedup_later_distinct data_list n m); [lia|done..].
  - intros x y Hconc.
    assert (sample_eq x y = false) as Hxy.
    { unfold sample_eq. rewrite Hconc. by rewrite andb_false_r. }
    split; [done|].
    rewrite !dedup_cons. unfold py_in. simpl.
    by rewrite sample_eq_sym, Hxy.
Qed.
End distinct_facts.

Lemma dedup_pairwise_distinct_witness :
  let r := {| sample_filename := "sample_001.tsv"; Objects_ml := PyFloat 0.004;
              date := CNone; lat := CNone; lon := CNone |} in
  let r' := {| sample_filename := "sample_001.tsv"; Objects_ml := PyFloat 0.008;
               date := CNone; lat := CNone; lon := CNone |} in
  sample_eq r r' = false ∧ dedup [r; r; r'] = [r; r'].
Proof.
  intros r r'. split; [|by vm_compute].
  destruct (dedup_pairwise_distinct [r; r; r']) as [Hdistinct _].
  by apply (Hdistinct 0%nat 1%nat).
Defined.

Lemma final_dataset_counterexample :
  let r := {| sample_filename := "sample_001.tsv"; Objects_ml := PyFloat 0.1;
              date := CStr "2023-07-04"; lat := CFloat 48.5; lon := CFloat (-4.25) |} in
  create_df (builtins:=decimal_literals) (pandas:=iso8601_dates) (utils:=two_archives)
    "../data/export/" = Ok [r; r]
  ∧ sample_eq r r = true.
Proof. by vm_compute. Qed.

(** ** Date normalisation *)

Lemma mapM_Ok {A B} (f : A → result B) (l : list A) (out : list B) :
  mapM f l = Ok out ↔ Forall2 (λ a b, f a = Ok b) l out.
Proof.
  revert out. induction l as [|a l IH]; intros out; simpl.
  - split; [intros [= <-]; constructor|by intros ->%Forall2_nil_inv_l].
  - destruct (f a) as [b|e] eqn:Ha; simpl.
    + destruct (mapM f l) as [k|e] eqn:Hl; simpl.
      * split.
        -- intros [= <-]. constructor; [done|by apply IH].
        -- intros (b' & k' & Hb & Hk & ->)%Forall2_cons_inv_l.
           apply IH in Hk. rewrite Ha in Hb.
           injection Hb as <-. by injection Hk as <-.
      * split; [done|].
        intros (b' & k' & _ & Hk & _)%Forall2_cons_inv_l. by apply IH in Hk.
    + split; [done|].
      intros (b' & k' & Hb & _)%Forall2_cons_inv_l. congruence.
Qed.

Lemma mapM_Raise {A B} (f : A → result B) (l : list A) :
  (∃ e, mapM f l = Raise e) ↔ ∃ a e, a ∈ l ∧ f a = Raise e.
Proof.
  induction l as [|a l IH]; simpl.
  - split; [by intros [e ?]|by intros (a & e & ?%elem_of_nil & _)].
  - destruct (f a) as [b|e] eqn:Ha; simpl.
    + destruct (mapM f l) as [k|e] eqn:Hl; simpl.
      * split; [by intros [e ?]|].
        intros (a' & e & [->|Ha']%elem_of_cons & Hraise); [congruence|].
        destruct IH as [_ [e' ?]]; [by exists a', e|done].
      * split; [|by exists e].
        intros _. destruct IH as [(a' & e' & ? & ?) _]; [by exists e|].
        exists a', e'. split; [by right|done].
    + split; [|by exists e].
      intros _. exists a, e. split; [by left|done].
Qed.

Section normalisation_facts.
Context {pandas : Pandas}.

Lemma DataFrame_length (data_list : list sample) :
  length (DataFrame data_list) = length data_list.
Proof. unfold DataFrame. by rewrite length_fmap. Qed.

Lemma DataFrame_filenames (data_list : list sample) :
  sample_filename <$> DataFrame data_list = sample_filename <$> data_list.
Proof. unfold DataFrame. rewrite <- list_fmap_compose. by apply list_fmap_ext. Qed.

Lemma to_datetime1_raise (col : list cell) (c : cell) (e : exn) :
  to_datetime1 col c = Raise e ↔ isna c = false ∧ to_datetime_entry col c = Raise e.
Proof.
  unfold to_datetime1. destruct (isna c); [by split; [|intros []]|].
  by split; [|intros []].
Qed.

Lemma normalise_dates_raise (rows : list sample) :
  (∃ e, normalise_dates rows = Raise e)
  ↔ ∃ r e, r ∈ rows ∧ isna (date r) = false
           ∧ to_datetime_entry (date <$> rows) (date r) = Raise e.
Proof.
  unfold normalise_dates, to_datetime. split.
  - intros [e Hraise].
    apply bind_raise in Hraise as [Hraise|(? & _ & ?)]; [|done].
    destruct (mapM_Raise (to_datetime1 (date <$> rows)) (date <$> rows)) as [Hsome _].
    destruct Hsome as (c & e' & (r & -> & Hr)%list_elem_of_fmap & Hc); [by exists e|].
    apply to_datetime1_raise in Hc as [? ?]. by exists r, e'.
  - intros (r & e & Hr & Hna & Hparse).
    destruct (mapM_Raise (to_datetime1 (date <$> rows)) (date <$> rows)) as [_ [e' He']].
    { exists (date r), e. split; [by apply list_elem_of_fmap_2|].
      by apply to_datetime1_raise. }
    exists e'. by rewrite He'.
Qed.

Lemma normalise_dates_Ok (rows out : list sample) :
  normalise_dates rows = Ok out →
  length out = length rows
  ∧ ∀ (n : nat) r, rows !! n = Some r →
      ∃ d, out !! n = Some (set_date r d)
           ∧ (isna (date r) = true → d = CFloat nan)
           ∧ (isna (date r) = false →
              (to_datetime_entry (date <$> rows) (date r) = Ok None ∧ d = CFloat nan)
              ∨ ∃ t, to_datetime_entry (date <$> rows) (date r) = Ok (Some t)
                     ∧ d = CStr (strftime_Ymd t)).
Proof.
  unfold normalise_dates, to_datetime.
  destruct (mapM (to_datetime1 (date <$> rows)) (date <$> rows)) as [dates|] eqn:Hdates;
    [|done].
  rewrite bind_Ok. intros [= <-].
  apply mapM_Ok in Hdates.
  pose proof (Forall2_length _ _ _ Hdates) as Hlen. rewrite length_fmap in Hlen.
  split.
  { unfold dt_strftime. rewrite length_zip_with, length_fmap. lia. }
  intros n r Hn.
  destruct (Forall2_lookup_l _ _ _ n (date r) Hdates) as (o & Ho & Hdate).
  { by rewrite list_lookup_fmap, Hn. }
  unfold dt_strftime. rewrite lookup_zip_with, Hn, list_lookup_fmap, Ho. simpl.
  eexists. split; [done|].
  unfold to_datetime1 in Hdate. destruct (isna (date r)).
  - injection Hdate as <-. by split.
  - split; [done|]. intros _. destruct o as [t|]; [right; by exists t|by left].
Qed.

Lemma normalise_dates_filenames (rows out : list sample) :
  normalise_dates rows = Ok out → sample_filename <$> out = sample_filename <$> rows.
Proof.
  intros [Hlen Hrows]%normalise_dates_Ok.
  apply list_eq. intros n. rewrite !list_lookup_fmap.
  destruct (rows !! n) as [r|] eqn:Hn.
  - destruct (Hrows n r Hn) as (d & -> & _). done.
  - apply lookup_ge_None in Hn. rewrite (lookup_ge_None_2 out n); [done|lia].
Qed.
End normalisation_facts.

Lemma strftime_Ymd_shape (t : timestamp) :
  String.length (strftime_Ymd t) = 10%nat
  ∧ String.get 4 (strftime_Ymd t) = Some "-"%char
  ∧ String.get 7 (strftime_Ymd t) = Some "-"%char.
Proof. done. Qed.

Lemma digit_value_digit (n : Z) : digit_value (digit n) = Some (n mod 10).
Proof.
  unfold digit_value, digit.
  pose proof (Z.mod_pos_bound n 10 eq_refl) as Hmod.
  rewrite nat_ascii_embedding by lia.
  replace (Z.of_nat (48 + Z.to_nat (n mod 10))) with (48 + n mod 10) by lia.
  destruct (Z.leb_spec 48 (48 + n mod 10)); [|lia].
  destruct (Z.leb_spec (48 + n mod 10) 57); [|lia].
  simpl. f_equal. lia.
Qed.

Lemma natural_pad2 (n : Z) : 0 ≤ n < 100 → natural (pad2 n) = Some n.
Proof.
  intros Hn. unfold natural, pad2. cbn [digits_value].
  rewrite (digit_value_digit (n `div` 10)). cbn [mbind option_bind].
  rewrite !digit_value_digit. cbn [mbind option_bind]. f_equal.
  Z.div_mod_to_equations. lia.
Qed.

Lemma natural_pad4 (n : Z) : 0 ≤ n < 10000 → natural (pad4 n) = Some n.
Proof.
  intros Hn. unfold natural, pad4, pad2. cbn [digits_value].
  repeat (rewrite !digit_value_digit; cbn [mbind option_bind]). f_equal.
  Z.div_mod_to_equations. lia.
Qed.

Lemma strftime_Ymd_fields (t : timestamp) :
  substring 0 4 (strftime_Ymd t) = pad4 (year t)
  ∧ substring 5 2 (strftime_Ymd t) = pad2 (month t)
  ∧ substring 8 2 (strftime_Ymd t) = pad2 (day t).
Proof. done. Qed.

(** The digits of the date string are those of the day rendered. *)
Lemma strftime_Ymd_reads_back (t : timestamp) :
  (0 ≤ year t < 10000 → natural (substring 0 4 (strftime_Ymd t)) = Some (year t))
  ∧ (0 ≤ month t < 100 → natural (substring 5 2 (strftime_Ymd t)) = Some (month t))
  ∧ (0 ≤ day t < 100 → natural (substring 8 2 (strftime_Ymd t)) = Some (day t)).
Proof.
  destruct (strftime_Ymd_fields t) as (-> & -> & ->).
  split; [apply natural_pad4|]. split; apply natural_pad2.
Qed.

Section assembler_facts.
Context {builtins : Builtins} {pandas : Pandas} {utils : Utils}.

(** C5, amended: once the sources are loaded, the duplicates removed
    and the frame built, a successful [create_df] returns every row of
    the frame with its date rewritten: a date [pd.to_datetime] converts
    to a timestamp becomes the [YYYY-MM-DD] rendering of that
    timestamp's year, month and day; a missing date, and a present one
    [pd.to_datetime] converts to NaT, end absent; a single row whose
    date is present and makes [pd.to_datetime] raise makes [create_df]
    raise; and when no present date does, [create_df] succeeds. *)
Theorem create_df_normalises_dates (path : string) (tsvs : list string)
    (data_list : list sample) :
  find_tsv_files path = Ok tsvs →
  build_all tsvs = Ok data_list →
  (∀ out, create_df path = Ok out →
     length out = length (dedup data_list)
     ∧ ∀ (n : nat) r, DataFrame (dedup data_list) !! n = Some r →
         ∃ d, out !! n = Some (set_date r d)
              ∧ (isna (date r) = true → d = CFloat nan)
              ∧ (isna (date r) = false →
                 (to_datetime_entry (date <$> DataFrame (dedup data_list)) (date r)
                  = Ok None
                  ∧ d = CFloat nan)
                 ∨ ∃ t, to_datetime_entry (date <$> DataFrame (dedup data_list)) (date r)
                        = Ok (Some t)
                        ∧ d = CStr (strftime_Ymd t)
                        ∧ String.length (strftime_Ymd t) = 10%nat
                        ∧ String.get 4 (strftime_Ymd t) = Some "-"%char
                        ∧ String.get 7 (strftime_Ymd t) = Some "-"%char
                        ∧ (0 ≤ year t < 10000 →
                           natural (substring 0 4 (strftime_Ymd t)) = Some (year t))
                        ∧ (0 ≤ month t < 100 →
                           natural (substring 5 2 (strftime_Ymd t)) = Some (month t))
                        ∧ (0 ≤ day t < 100 →
                           natural (substring 8 2 (strftime_Ymd t)) = Some (day t))))
  ∧ (∀ r e, r ∈ DataFrame (dedup data_list) → isna (date r) = false →
            to_datetime_entry (date <$> DataFrame (dedup data_list)) (date r) = Raise e →
            ∃ e', create_df path = Raise e')
  ∧ ((∀ r, r ∈ DataFrame (dedup data_list) → isna (date r) = false →
           ∃ o, to_datetime_entry (date <$> DataFrame (dedup data_list)) (date r) = Ok o) →
     ∃ out, create_df path = Ok out).
Proof.
  intros Hfind Hbuild.
  assert (create_df path = normalise_dates (DataFrame (dedup data_list))) as ->.
  { unfold create_df. by rewrite Hfind, bind_Ok, Hbuild, bind_Ok. }
  split; [|split].
  - intros out Hout.
    destruct (normalise_dates_Ok _ out Hout) as [Hlen Hrows].
    rewrite DataFrame_length in Hlen.
    split; [done|]. intros n r Hn.
    destruct (Hrows n r Hn) as (d & Hd & Hna & Hparsed).
    exists d. split; [done|]. split; [done|].
    intros [?|(t & Ht & ->)]%Hparsed; [by left|]. right. exists t.
    split; [done|]. split; [done|].
    destruct (strftime_Ymd_shape t) as (? & ? & ?).
    destruct (strftime_Ymd_reads_back t) as (? & ? & ?). done.
  - intros r e Hr Hna Hparse.
    apply normalise_dates_raise. by exists r, e.
  - intros Hall.
    destruct (normalise_dates (DataFrame (dedup data_list))) as [out|e] eqn:Hnorm;
      [by exists out|].
    destruct (normalise_dates_raise (DataFrame (dedup data_list)))
      as [(r & e' & Hr & Hna & Hparse) _]; [by exists e|].
    destruct (Hall r Hr Hna) as [t Ht]. congruence.
Qed.
End assembler_facts.

Lemma create_df_normalises_dates_witness :
  create_df (builtins:=decimal_literals) (pandas:=iso8601_dates) (utils:=dated_to_the_second)
    "../data/export/"
  = Ok [ {| sample_filename := "sample_006.tsv"; Objects_ml := PyFloat 0.1;
            date := CStr "2023-07-04"; lat := CFloat 48.5; lon := CFloat (-4.25) |} ]
  ∧ ∃ e, create_df (builtins:=decimal_literals) (pandas:=iso8601_dates) (utils:=undated_export)
           "../data/export/" = Raise e.
Proof.
  split.
  - destruct (create_df_normalises_dates (builtins:=decimal_literals)
                (pandas:=iso8601_dates) (utils:=dated_to_the_second) "../data/export/"
                ["../data/export/sample_006.tsv"]
                [ {| sample_filename := "sample_006.tsv"; Objects_ml := PyFloat 0.1;
                     date := CStr "2023-07-04T10:15:00";
                     lat := CFloat 48.5; lon := CFloat (-4.25) |} ])
      as (Hrows & _ & Hsucceeds); [reflexivity|by vm_compute|].
    destruct Hsucceeds as [out Hout].
    { intros r ->%list_elem_of_singleton _. by eexists. }
    destruct (Hrows out Hout) as [Hlen Hrow].
    destruct (Hrow 0%nat _ eq_refl) as (d & Hd & _ & Hpresent).
    destruct (Hpresent eq_refl) as [[Hnat _]|(t & Ht & -> & _)]; [by vm_compute in Hnat|].
    vm_compute in Ht. injection Ht as <-.
    rewrite Hout. destruct out as [|row [|]]; [done| |done].
    simpl in Hd. by injection Hd as ->.
  - edestruct (create_df_normalises_dates (builtins:=decimal_literals)
                 (pandas:=iso8601_dates) (utils:=undated_export) "../data/export/")
      as (_ & Hraise & _).
    + reflexivity.
    + by vm_compute.
    + eapply Hraise; [by left|reflexivity..].
Defined.

Lemma create_df_normalises_dates_counterexample :
  build_all (builtins:=decimal_literals) (utils:=export_dated_NaT)
    ["../data/export/sample_003.tsv"]
  = Ok [ {| sample_filename := "sample_003.tsv"; Objects_ml := PyFloat 0.1;
            date := CStr "NaT"; lat := CFloat 48.5; lon := CFloat (-4.25) |} ]
  ∧ parse_iso8601 "NaT" = None
  ∧ (λ out : list sample, date <$> out) <$> create_df (builtins:=decimal_literals) (pandas:=iso8601_dates)
                      (utils:=export_dated_NaT) "../data/export/"
    = Ok [CFloat nan]
  ∧ (λ out : list sample, date <$> out) <$> create_df (builtins:=decimal_literals) (pandas:=iso8601_dates)
                      (utils:=dated_to_the_day) "../data/export/"
    = Ok [CStr "2023-07-05"]
  ∧ create_df (builtins:=decimal_literals) (pandas:=iso8601_dates)
      (utils:=mixed_formats) "../data/export/"
    = Raise ValueError.
Proof. by vm_compute. Qed.

(** ** The selection callback *)

(** The callback writes opacities and the controller's log, nothing else. *)
Lemma select_point_frame (clickData : option click) (self : WorldMap) :
  let self' := (select_point clickData self).2 in
  publisher self' = publisher self
  ∧ df self' = df self
  ∧ customdata (fig self') = customdata (fig self).
Proof.
  destruct clickData as [[[|selected_point others]]|]; [done| |done].
  unfold select_point, mbind, act_bind, lift, read, update_traces_opacity,
    controller_publish. simpl.
  destruct (point_customdata selected_point) as [|dataset_name ?]; [done|]. simpl.
  by destruct (controller self).
Qed.

Section callback_facts.
Context {builtins : Builtins} {pandas : Pandas} {utils : Utils}.

Lemma reachable_invariant (self : WorldMap) :
  reachable self →
  publisher self = "visualization/dataset"
  ∧ customdata (fig self) = (λ r, [sample_filename r]) <$> df self.
Proof.
  induction 1 as [controller self Hinit|self clickData _ [IHtopic IHdata]].
  - unfold WorldMap_init in Hinit.
    destruct (create_df "../data/export/") as [data|]; [|done].
    by injection Hinit as <-.
  - destruct (select_point_frame clickData self) as (-> & -> & ->). done.
Qed.

(** C7: in a state the program can be in, with a controller attached,
    a click on row [i] makes the callback publish once, on the topic
    ["visualization/dataset"], the file name of row [i]; the callback
    returns the figure and the data set is the one it was. *)
Theorem select_point_publishes (self : WorldMap) (log : list (string * string))
    (i : nat) (r : sample) (clickData : click) :
  reachable self →
  controller self = Some log →
  df self !! i = Some r →
  click_on (fig self) i = Some clickData →
  ∃ self',
    select_point (Some clickData) self = (Ok (Figure (fig self')), self')
    ∧ controller self'
      = Some (log ++ [("visualization/dataset", sample_filename r)])%list
    ∧ publisher self' = "visualization/dataset"
    ∧ df self' = df self.
Proof.
  intros [Htopic Hdata]%reachable_invariant Hlog Hr Hclick.
  unfold click_on in Hclick. rewrite Hdata, list_lookup_fmap, Hr in Hclick.
  injection Hclick as <-.
  unfold select_point, mbind, act_bind, lift, read, update_traces_opacity,
    controller_publish. simpl.
  rewrite Hlog, Htopic. eexists. split; [done|]. done.
Qed.

(** C10: without click data the callback answers [no_update]; the
    state, with its figure and its controller's log, is the one it was
    given. *)
Theorem select_point_without_click (self : WorldMap) :
  select_point None self = (Ok no_update, self).
Proof. reflexivity. Qed.
End callback_facts.

Lemma select_point_publishes_witness :
  ∃ self clickData,
    WorldMap_init (builtins:=decimal_literals) (pandas:=iso8601_dates) (utils:=two_archives) (Some [])
    = Ok self
    ∧ click_on (fig self) 1 = Some clickData
    ∧ controller (select_point (Some clickData) self).2
      = Some [("visualization/dataset", "sample_001.tsv")].
Proof.
  eexists. eexists. split; [by vm_compute|]. split; [by vm_compute|].
  edestruct (select_point_publishes (builtins:=decimal_literals) (pandas:=iso8601_dates)
               (utils:=two_archives)) as (self' & -> & Hlog & _).
  - by apply (reachable_init (Some [])).
  - reflexivity.
  - instantiate (2 := 1%nat). reflexivity.
  - reflexivity.
  - exact Hlog.
Defined.


(** * Further properties *)

(** ** The builder *)

Lemma bind_Ok_inv {A B} (m : result A) (f : A → result B) (b : B) :
  m ≫= f = Ok b → ∃ a, m = Ok a ∧ f a = Ok b.
Proof. destruct m as [a|e]; intros Hb; [by exists a|done]. Qed.

Lemma is_nan_Prim2SF (f : float) : Prim2SF f = S754_nan → is_nan f = true.
Proof.
  intros Hnan. unfold is_nan. by rewrite FloatAxioms.eqb_spec, Hnan.
Qed.

Lemma float_bool_nan (f : float) : is_nan f = true → float_bool f = true.
Proof.
  intros Hnan. unfold float_bool. by rewrite float_eqb_sym, (float_eqb_nan f).
Qed.

Lemma float_mul_nan (f g : float) :
  is_nan f = true ∨ is_nan g = true → is_nan (f * g) = true.
Proof.
  intros Hnan. apply is_nan_Prim2SF. rewrite FloatAxioms.mul_spec.
  destruct Hnan as [->%Prim2SF_nan| ->%Prim2SF_nan]; [done|].
  by destruct (Prim2SF f).
Qed.

Lemma float_div_nan (f g : float) :
  is_nan f = true ∨ is_nan g = true → is_nan (f / g) = true.
Proof.
  intros Hnan. apply is_nan_Prim2SF. rewrite FloatAxioms.div_spec.
  destruct Hnan as [->%Prim2SF_nan| ->%Prim2SF_nan]; [done|].
  by destruct (Prim2SF f).
Qed.

Lemma as_float_PyFloat (f a : float) : as_float (PyFloat f) = Ok a → a = f.
Proof. by intros [= ->]. Qed.

Lemma py_mul_nan (x y r : num) :
  nan_num x = true ∨ nan_num y = true → py_mul x y = Ok r → nan_num r = true.
Proof.
  intros Hnan. destruct x as [a|f], y as [b|g]; unfold py_mul;
    try (by destruct Hnan).
  all: intros (a' & Ha & (b' & Hb & [= <-])%bind_Ok_inv)%bind_Ok_inv.
  all: apply float_mul_nan.
  - right. apply as_float_PyFloat in Hb as ->. by destruct Hnan.
  - left. apply as_float_PyFloat in Ha as ->. by destruct Hnan.
  - apply as_float_PyFloat in Ha as ->. apply as_float_PyFloat in Hb as ->. done.
Qed.

Lemma fmap_Ok_inv {A B} (f : A → B) (m : result A) (b : B) :
  f <$> m = Ok b → ∃ a, m = Ok a ∧ b = f a.
Proof. destruct m as [a|e]; intros Hb; [|done]. exists a. by injection Hb as <-. Qed.

Lemma float_truediv_Ok (a b q : float) : float_truediv a b = Ok q → q = (a / b)%float.
Proof. unfold float_truediv. destruct (b =? 0)%float; [done|]. by intros [= <-]. Qed.

Lemma py_truediv_nan (x y r : num) :
  nan_num x = true ∨ nan_num y = true → py_truediv x y = Ok r → nan_num r = true.
Proof.
  intros Hnan. destruct x as [a|f], y as [b|g]; unfold py_truediv;
    try (by destruct Hnan).
  all: intros (a' & Ha & (b' & Hb & (q & ->%float_truediv_Ok & ->)%fmap_Ok_inv)
                 %bind_Ok_inv)%bind_Ok_inv.
  all: apply float_div_nan.
  - right. apply as_float_PyFloat in Hb as ->. by destruct Hnan.
  - left. apply as_float_PyFloat in Ha as ->. by destruct Hnan.
  - apply as_float_PyFloat in Ha as ->. apply as_float_PyFloat in Hb as ->. done.
Qed.

Lemma py_truediv_PyFloat (x y r : num) :
  py_truediv x y = Ok r → ∃ f, r = PyFloat f.
Proof.
  destruct x as [a|f], y as [b|g]; unfold py_truediv.
  - intros (q & _ & ->)%fmap_Ok_inv. by exists q.
  - intros (? & _ & (? & _ & (q & _ & ->)%fmap_Ok_inv)%bind_Ok_inv)%bind_Ok_inv.
    by exists q.
  - intros (? & _ & (? & _ & (q & _ & ->)%fmap_Ok_inv)%bind_Ok_inv)%bind_Ok_inv.
    by exists q.
  - intros (? & _ & (? & _ & (q & _ & ->)%fmap_Ok_inv)%bind_Ok_inv)%bind_Ok_inv.
    by exists q.
Qed.

Lemma py_mul_PyFloat (f : float) (y r : num) :
  py_mul (PyFloat f) y = Ok r → ∃ g, r = PyFloat g.
Proof.
  destruct y as [b|g]; unfold py_mul;
    intros (a' & _ & (b' & _ & [= <-])%bind_Ok_inv)%bind_Ok_inv; eauto.
Qed.

Section builder_more.
Context {builtins : Builtins}.

(** What [build_record] computed when it returns. *)
Lemma build_record_Ok (df_temp : table) (nb_objects : Z) (tsv : string) (r : sample) :
  build_record df_temp nb_objects tsv = Ok r →
  ∃ iv dil csv tv per_volume diluted litres fraction,
    get_value df_temp "acq_imaged_volume" (PyInt 1) = Ok iv
    ∧ get_value df_temp "sample_dilution_factor" (PyInt 1) = Ok dil
    ∧ get_value df_temp "sample_concentrated_sample_volume" (PyInt 1) = Ok csv
    ∧ get_value df_temp "sample_total_volume" (PyInt 1) = Ok tv
    ∧ filename_of tsv = Ok (sample_filename r)
    ∧ py_truediv (PyInt nb_objects) iv = Ok per_volume
    ∧ py_mul per_volume dil = Ok diluted
    ∧ py_mul tv (PyInt 1000) = Ok litres
    ∧ py_truediv csv litres = Ok fraction
    ∧ py_mul diluted fraction = Ok (Objects_ml r)
    ∧ date r = first_or_None df_temp "acq_local_datetime"
    ∧ lat r = first_or_None df_temp "object_lat"
    ∧ lon r = first_or_None df_temp "object_lon".
Proof.
  unfold build_record.
  intros (iv & Hiv & (dil & Hdil & (csv & Hcsv & (tv & Htv & (f & Hf
    & (per_volume & Hper & (diluted & Hdiluted & (litres & Hlitres
    & (fraction & Hfraction & (objects_ml & Hobjects & [= <-])%bind_Ok_inv)
    %bind_Ok_inv)%bind_Ok_inv)%bind_Ok_inv)%bind_Ok_inv)%bind_Ok_inv)%bind_Ok_inv)
    %bind_Ok_inv)%bind_Ok_inv)%bind_Ok_inv.
  exists iv, dil, csv, tv, per_volume, diluted, litres, fraction. done.
Qed.

Lemma get_value_nan (df : table) (column : string) (default : num)
    (first : cell) (rest : list cell) (f : float) :
  df !! column = Some (first :: rest) → py_float first = Ok f → is_nan f = true →
  get_value df column default = Ok (PyFloat f).
Proof.
  intros Hcol Hfloat Hnan. unfold get_value. rewrite Hcol, Hfloat. simpl.
  by rewrite (float_bool_nan f Hnan).
Qed.

(** X1: a nan in the first row of a volume column is not replaced by
    the default: [get_value] returns it, and every record built from
    such a table has a nan concentration. *)
Theorem nan_volume_poisons_concentration (df_temp : table) (column : string)
    (first : cell) (rest : list cell) (f : float) :
  column ∈ volume_columns →
  df_temp !! column = Some (first :: rest) →
  py_float first = Ok f →
  is_nan f = true →
  get_value df_temp column (PyInt 1) = Ok (PyFloat f)
  ∧ ∀ nb_objects tsv r,
      build_record df_temp nb_objects tsv = Ok r → nan_num (Objects_ml r) = true.
Proof.
  intros Hcolumn Hcol Hfloat Hnan.
  pose proof (get_value_nan df_temp column (PyInt 1) first rest f Hcol Hfloat Hnan)
    as Hvalue.
  split; [done|]. intros nb_objects tsv r Hr.
  apply build_record_Ok in Hr
    as (iv & dil & csv & tv & per_volume & diluted & litres & fraction
        & Hiv & Hdil & Hcsv & Htv & _ & Hper & Hdiluted & Hlitres & Hfraction
        & Hobjects & _).
  apply (py_mul_nan _ _ _) in Hobjects; [done|].
  unfold volume_columns in Hcolumn.
  repeat (apply elem_of_cons in Hcolumn as [->|Hcolumn]);
    [..|by apply elem_of_nil in Hcolumn].
  - rewrite Hvalue in Hiv. injection Hiv as <-.
    left. eapply py_mul_nan; [|done]. left. eapply py_truediv_nan; [|done]. by right.
  - rewrite Hvalue in Hdil. injection Hdil as <-.
    left. eapply py_mul_nan; [|done]. by right.
  - rewrite Hvalue in Hcsv. injection Hcsv as <-.
    right. eapply py_truediv_nan; [|done]. by left.
  - rewrite Hvalue in Htv. injection Htv as <-.
    right. eapply py_truediv_nan; [|done]. right.
    eapply py_mul_nan; [|done]. by left.
Qed.
End builder_more.

Lemma nan_volume_poisons_concentration_witness :
  ∃ r, build_record (builtins:=decimal_literals)
         {[ "sample_total_volume" := [CFloat nan] ]} 100 "sample_001.tsv" = Ok r
       ∧ nan_num (Objects_ml r) = true.
Proof.
  eexists. split; [by vm_compute|].
  destruct (nan_volume_poisons_concentration (builtins:=decimal_literals)
    {[ "sample_total_volume" := [CFloat nan] ]} "sample_total_volume"
    (CFloat nan) [] nan) as [_ Hnan];
    [by repeat constructor|reflexivity..|].
  apply (Hnan 100 "sample_001.tsv"). by vm_compute.
Defined.

Section builder_frame.
Context {builtins : Builtins}.

Lemma get_value_first (df : table) (column : string) (default : num) :
  get_value df column default
  = match df !! column ≫= head with
    | Some first =>
        try_except
          (value ← py_float first;
           Ok (if float_bool value then PyFloat value else default))
          ValueError_or_TypeError (Ok default)
    | None => Ok default
    end.
Proof. unfold get_value. by destruct (df !! column) as [[|first rest]|]. Qed.

Lemma first_or_None_first (df : table) (column : string) :
  first_or_None df column = default CNone (df !! column ≫= head).
Proof. unfold first_or_None. by destruct (df !! column) as [[|first rest]|]. Qed.

(** X2: [build_record] reads nothing of a table but the first row of
    the seven columns it names: two tables that agree there give the
    same record, or the same error, whatever else they hold. *)
Theorem build_record_reads_first_rows (df1 df2 : table) (nb_objects : Z) (tsv : string) :
  (∀ column, column ∈ read_columns →
             df1 !! column ≫= head = df2 !! column ≫= head) →
  build_record df1 nb_objects tsv = build_record df2 nb_objects tsv.
Proof.
  intros Hagree. unfold build_record.
  rewrite !get_value_first, !first_or_None_first.
  by rewrite !Hagree by (unfold read_columns, volume_columns; set_solver).
Qed.

(** X3: the concentration of a built record is always a float, never
    an int, and the only exception [build_record] can raise is
    [OverflowError]: that of [float()] on an over-large int in the
    first row of a volume column, or that of the arithmetic of line 66
    on an over-large object count or result. *)
Theorem build_record_float_or_overflow (df_temp : table) (nb_objects : Z) (tsv : string) :
  (∀ r, build_record df_temp nb_objects tsv = Ok r → ∃ f, Objects_ml r = PyFloat f)
  ∧ (∀ e, build_record df_temp nb_objects tsv = Raise e → e = OverflowError).
Proof.
  split; [|apply build_record_raise].
  intros r (iv & dil & csv & tv & per_volume & diluted & litres & fraction
            & _ & _ & _ & _ & _ & Hper & Hdiluted & _ & _ & Hobjects & _)%build_record_Ok.
  apply py_truediv_PyFloat in Hper as [f ->].
  apply py_mul_PyFloat in Hdiluted as [g ->].
  by apply py_mul_PyFloat in Hobjects.
Qed.
End builder_frame.

Lemma build_record_reads_first_rows_witness :
  build_record (builtins:=decimal_literals)
    {[ "acq_imaged_volume" := [CFloat 10; CFloat 20]; "object_id" := [CStr "a"] ]}
    100 "sample_001.tsv"
  = build_record (builtins:=decimal_literals)
      {[ "acq_imaged_volume" := [CFloat 10] ]} 100 "sample_001.tsv".
Proof.
  apply (build_record_reads_first_rows (builtins:=decimal_literals)).
  intros column Hcolumn. unfold read_columns, volume_columns in Hcolumn.
  repeat (apply elem_of_cons in Hcolumn as [->|Hcolumn]);
    [reflexivity..|by apply elem_of_nil in Hcolumn].
Defined.

Lemma build_record_float_or_overflow_witness :
  build_record (builtins:=decimal_literals) ∅ (10 ^ 400) "sample_001.tsv"
  = Raise OverflowError
  ∧ build_record (builtins:=decimal_literals)
      {[ "sample_dilution_factor" := [CInt (10 ^ 400)] ]} 100 "sample_001.tsv"
    = Raise OverflowError
  ∧ ∃ f, Objects_ml <$> build_record (builtins:=decimal_literals) ∅ 100 "sample_001.tsv"
         = Ok (PyFloat f).
Proof.
  split; [|split].
  - destruct (build_record_float_or_overflow (builtins:=decimal_literals)
                ∅ (10 ^ 400) "sample_001.tsv") as [_ Hraise].
    destruct (build_record (builtins:=decimal_literals) ∅ (10 ^ 400) "sample_001.tsv")
      as [r|e] eqn:Hbuild; [by vm_compute in Hbuild|].
    by rewrite (Hraise e eq_refl).
  - destruct (build_record_float_or_overflow (builtins:=decimal_literals)
                {[ "sample_dilution_factor" := [CInt (10 ^ 400)] ]} 100 "sample_001.tsv")
      as [_ Hraise].
    destruct (build_record (builtins:=decimal_literals)
                {[ "sample_dilution_factor" := [CInt (10 ^ 400)] ]} 100 "sample_001.tsv")
      as [r|e] eqn:Hbuild; [by vm_compute in Hbuild|].
    by rewrite (Hraise e eq_refl).
  - destruct (build_record_float_or_overflow (builtins:=decimal_literals)
                ∅ 100 "sample_001.tsv") as [Hfloat _].
    destruct (build_record (builtins:=decimal_literals) ∅ 100 "sample_001.tsv")
      as [r|e] eqn:Hbuild; [|by vm_compute in Hbuild].
    destruct (Hfloat r eq_refl) as [f Hf]. exists f. simpl. by rewrite Hf.
Defined.

(** ** File names, further *)

Section path_facts.
Local Open Scope string_scope.

Lemma basename_without_slash (s : string) : ¬ occurs "/" s → basename s = s.
Proof.
  intros Hnone. unfold basename.
  destruct (rfind_slash s) as [[-> _]|[Hfound _]]; [done|].
  destruct Hnone. clear -Hfound.
  induction s as [|a s IH]; [done|].
  cbn [rfind] in Hfound.
  destruct (Z.leb_spec 0 (rfind "/" s)) as [Hs|Hs].
  - by apply occurs_tail, IH.
  - destruct (Ascii.eqb_spec a "/") as [->|Hne]; [|lia]. by exists "", s.
Qed.

(** What [filename_of] returns, read off the split. *)
Lemma filename_of_shape (tsv f : string) :
  filename_of tsv = Ok f →
  ¬ occurs "zip:" f
  ∧ (f = basename tsv ∨ ∃ pre, basename tsv = pre ++ "zip:" ++ f).
Proof.
  destruct (split_from_last "zip:" (basename tsv)) as (segs & f' & Hsplit & Hf' & Hshape);
    [done|].
  unfold filename_of, py_split, item_last.
  rewrite Hsplit, bind_Ok, last_snoc. intros [= <-].
  split; [done|]. destruct Hshape as [[_ ->]|[_ Hpre]]; auto.
Qed.

Lemma filename_of_plain (f : string) :
  ¬ occurs "/" f → ¬ occurs "zip:" f → filename_of f = Ok f.
Proof.
  intros Hslash Hzip.
  destruct (filename_of_last f) as (segs & f' & _ & Hf').
  destruct (filename_of_shape f f' Hf') as [_ Hshape].
  rewrite (basename_without_slash f Hslash) in Hshape.
  destruct Hshape as [->|[pre ->]]; [done|].
  destruct Hzip. by exists pre, f'.
Qed.

(** X4: the name kept for a source path holds no path separator and no
    ["zip:"], so it is a name [filename_of] leaves as it is: applying
    [filename_of] to its own result changes nothing. *)
Theorem filename_of_idempotent (tsv f : string) :
  filename_of tsv = Ok f →
  ¬ occurs "/" f ∧ ¬ occurs "zip:" f ∧ filename_of f = Ok f.
Proof.
  intros [Hzip Hshape]%filename_of_shape.
  assert (¬ occurs "/" f) as Hslash.
  { intros Hf. apply (basename_no_slash tsv).
    destruct Hshape as [<-|[pre ->]]; [done|].
    by apply occurs_suffix, occurs_suffix. }
  split; [done|]. split; [done|]. by apply filename_of_plain.
Qed.

Lemma rfind_trailing_slash (p : string) :
  rfind "/" (p ++ "/") = Z.of_nat (String.length p).
Proof.
  induction p as [|a p IH]; [done|].
  rewrite string_app_cons. cbn [rfind String.length]. rewrite IH.
  destruct (Z.leb_spec 0 (Z.of_nat (String.length p))); lia.
Qed.

Lemma slice_from_length (s : string) : slice_from (String.length s) s = "".
Proof. induction s as [|a s IH]; [done|]. exact IH. Qed.

(** X5: a source path that ends in a path separator has an empty last
    segment, and the name kept for it is the empty string. *)
Theorem filename_of_trailing_slash (p : string) :
  basename (p ++ "/") = "" ∧ filename_of (p ++ "/") = Ok "".
Proof.
  assert (basename (p ++ "/") = "") as Hbase.
  { unfold basename. rewrite rfind_trailing_slash.
    replace (Z.to_nat (Z.of_nat (String.length p) + 1))
      with (String.length (p ++ "/")) by (rewrite string_app_length; simpl; lia).
    apply slice_from_length. }
  split; [done|]. unfold filename_of. by rewrite Hbase.
Qed.
End path_facts.

Lemma filename_of_idempotent_witness :
  filename_of "../data/export/a.zip:sample_001.tsv" = Ok "sample_001.tsv"
  ∧ filename_of "sample_001.tsv" = Ok "sample_001.tsv".
Proof.
  split; [reflexivity|].
  by apply (filename_of_idempotent "../data/export/a.zip:sample_001.tsv").
Defined.

Section trailing_archive.
Local Open Scope string_scope.

Lemma string_app_nil_r (s : string) : s ++ "" = s.
Proof. induction s as [|a s IH]; [done|]. by rewrite string_app_cons, IH. Qed.

Lemma occurs_at_end (sep s : string) : occurs sep (s ++ sep).
Proof. exists s, "". by rewrite string_app_nil_r. Qed.

(** A string that ends in ["zip:"] splits into pieces the last of which
    is empty. *)
Lemma split_trailing_zip (s : string) :
  last (split_from "zip:" 0 (s ++ "zip:")) = Some "".
Proof.
  remember (String.length s) as n eqn:Hn. revert s Hn.
  induction (lt_wf n) as [n _ IH]. intros s Hn.
  destruct (String.prefix "zip:" (s ++ "zip:")) eqn:Hprefix.
  - assert (∃ c t, s ++ "zip:" = String c t) as (c & t & Hcons).
    { destruct s as [|c s]; [by exists "z"%char, "ip:"|].
      rewrite string_app_cons. by exists c, (s ++ "zip:"). }
    rewrite Hcons in Hprefix.
    destruct (split_from_prefix "zip:" c t Hprefix) as (b & Hb & Hsplit); [done|].
    rewrite Hcons, Hsplit. rewrite Hb in Hcons.
    assert (b = "" ∨ ∃ s', b = s' ++ "zip:" ∧ (String.length s' < n)%nat) as [->|Hrest].
    { destruct s as [|c1 [|c2 [|c3 [|c4 s']]]]; try (by vm_compute in Hcons).
      - left. by injection Hcons.
      - right. exists s'. split; [|simpl in Hn; lia].
        rewrite !string_app_cons in Hcons. by injection Hcons. }
    + done.
    + destruct Hrest as (s' & -> & Hlt).
      rewrite last_cons, (IH _ Hlt s' eq_refl). done.
  - destruct s as [|c s]; [by vm_compute in Hprefix|].
    rewrite string_app_cons in Hprefix |- *.
    cbn [split_from]. rewrite Hprefix.
    assert (String.length s < n)%nat as Hlt by (simpl in Hn; lia).
    pose proof (IH _ Hlt s eq_refl) as Hlast.
    destruct (split_from_last "zip:" (s ++ "zip:")) as (segs & f & Hsplit & Hf & Hshape);
      [done|].
    destruct Hshape as [[-> ->]|[Hsegs _]]; [destruct Hf; apply occurs_at_end|].
    rewrite Hsplit in Hlast |- *.
    destruct segs as [|seg segs]; [done|].
    change (last (seg :: (segs ++ [f])%list) = Some "") in Hlast.
    change (last (String c seg :: (segs ++ [f])%list) = Some "").
    rewrite last_cons in Hlast |- *.
    destruct (last (segs ++ [f])) eqn:Htail; [done|].
    by rewrite last_snoc in Htail.
Qed.

Lemma rfind_app_no_slash (p t : string) :
  ¬ occurs "/" t → rfind "/" (p ++ t) = rfind "/" p.
Proof.
  intros Ht. induction p as [|a p IH].
  - change ("" ++ t) with t.
    destruct (rfind_slash t) as [[-> _]|[Hfound _]]; [done|].
    destruct Ht. clear -Hfound.
    induction t as [|a t IH]; [done|].
    cbn [rfind] in Hfound.
    destruct (Z.leb_spec 0 (rfind "/" t)) as [Hs|Hs].
    + by apply occurs_tail, IH.
    + destruct (Ascii.eqb_spec a "/") as [->|Hne]; [|lia]. by exists "", t.
  - rewrite string_app_cons. cbn [rfind]. by rewrite IH.
Qed.

Lemma slice_from_app (i : nat) (p t : string) :
  (i ≤ String.length p)%nat → slice_from i (p ++ t) = slice_from i p ++ t.
Proof.
  revert p. induction i as [|i IH]; intros p Hi; [done|].
  destruct p as [|a p]; [simpl in Hi; lia|].
  rewrite string_app_cons. simpl. apply IH. simpl in Hi. lia.
Qed.

Lemma rfind_bound (p : string) : (-1 ≤ rfind "/" p < Z.of_nat (String.length p))%Z.
Proof.
  induction p as [|a p IH]; [done|].
  cbn [rfind String.length].
  destruct (Z.leb_spec 0 (rfind "/" p)); [lia|].
  destruct (Ascii.eqb a "/"); lia.
Qed.

(** X6: a source path that ends in ["zip:"] is kept under the empty
    name: the archive qualifier is cut and nothing follows it. *)
Theorem filename_of_trailing_archive (p : string) :
  filename_of (p ++ "zip:") = Ok "".
Proof.
  unfold filename_of, basename.
  rewrite rfind_app_no_slash.
  2: { intros (a & b & Heq).
       do 4 (destruct a as [|? a];
             [by vm_compute in Heq|rewrite string_app_cons in Heq; injection Heq as _ Heq]).
       destruct a; by vm_compute in Heq. }
  rewrite slice_from_app by (pose proof (rfind_bound p); lia).
  unfold py_split, item_last. rewrite bind_Ok.
  by rewrite split_trailing_zip.
Qed.
End trailing_archive.

(** ** Removing duplicates, further *)

Section dedup_more.
Implicit Types (l data_list : list sample) (i j x : sample).

Lemma py_in_all_false x l :
  (∀ j, j ∈ l → sample_eq j x = false) → py_in x l = false.
Proof.
  intros Hall. destruct (py_in x l) eqn:Hin; [|done].
  apply py_in_true in Hin as (m & j & Hm & Heq).
  rewrite (Hall j) in Heq; [done|]. by eapply list_elem_of_lookup_2.
Qed.

Lemma dedup_distinct_id l :
  (∀ (m n : nat) i j, (m < n)%nat → l !! m = Some i → l !! n = Some j →
                      sample_eq j i = false) →
  dedup l = l.
Proof.
  induction l as [|x l IH]; intros Hdistinct; [done|].
  rewrite dedup_cons, py_in_all_false, IH; [done| |].
  - intros m n i j Hlt Hi Hj. apply (Hdistinct (S m) (S n)); [lia|done..].
  - intros j [n Hn]%list_elem_of_lookup. apply (Hdistinct 0%nat (S n)); [lia|done..].
Qed.

(** X7: removing duplicates twice removes nothing more: the filter of
    line 74 leaves its own result as it is. *)
Theorem dedup_idempotent data_list : dedup (dedup data_list) = dedup data_list.
Proof. apply dedup_distinct_id. apply dedup_later_distinct. Qed.

Lemma dedup_not_nil x l : dedup (x :: l) ≠ [].
Proof.
  revert x. induction l as [|y l IH]; intros x; rewrite dedup_cons.
  - done.
  - destruct (py_in x (y :: l)); [apply IH|done].
Qed.

(** X8: the last record discovered is always kept, and stays last; so
    a list that is not empty is never filtered down to nothing. *)
Theorem dedup_keeps_final_record data_list :
  last (dedup data_list) = last data_list
  ∧ (data_list ≠ [] → dedup data_list ≠ []).
Proof.
  split; [|destruct data_list; [done|intros _; apply dedup_not_nil]].
  induction data_list as [|x [|y l] IH]; [done..|].
  rewrite dedup_cons, last_cons_cons, <- IH.
  destruct (py_in x (y :: l)); [done|].
  change ([x] ++ dedup (y :: l))%list with (x :: dedup (y :: l)).
  rewrite last_cons.
  destruct (last (dedup (y :: l))) eqn:Hlast; [done|].
  apply last_None in Hlast. by apply dedup_not_nil in Hlast.
Qed.
End dedup_more.

Lemma dedup_keeps_final_record_witness :
  let first := {| sample_filename := "s.tsv"; Objects_ml := PyFloat 0.1;
                  date := CNone; lat := CInt 45; lon := CNone |} in
  let final := {| sample_filename := "s.tsv"; Objects_ml := PyFloat 0.1;
                  date := CNone; lat := CFloat 45; lon := CNone |} in
  dedup [first; final] = [final] ∧ dedup [first; final] ≠ [].
Proof.
  intros first final. split; [by vm_compute|].
  by apply (dedup_keeps_final_record [first; final]).
Defined.

(** ** The assembler, further *)

Section assembler_more.
Context {builtins : Builtins} {pandas : Pandas} {utils : Utils}.

Lemma create_df_Ok (path : string) (tsvs : list string) (out : list sample) :
  find_tsv_files path = Ok tsvs → create_df path = Ok out →
  ∃ data_list, build_all tsvs = Ok data_list
               ∧ normalise_dates (DataFrame (dedup data_list)) = Ok out.
Proof.
  unfold create_df. intros -> Hout. rewrite bind_Ok in Hout.
  apply bind_Ok_inv in Hout as (data_list & Hbuild & Hout). by exists data_list.
Qed.

Lemma build_all_filenames (tsvs : list string) (data_list : list sample) :
  build_all tsvs = Ok data_list →
  mapM filename_of tsvs = Ok (sample_filename <$> data_list).
Proof.
  unfold build_all. intros Hbuild%mapM_Ok. apply mapM_Ok, Forall2_fmap_r.
  eapply Forall2_impl; [done|]. simpl.
  intros tsv r ([[df_temp nb_objects] meta] & _ & Hr)%bind_Ok_inv.
  by apply build_record_Ok in Hr as (? & ? & ? & ? & ? & ? & ? & ? & _ & _ & _ & _ & Hf & _).
Qed.

Lemma sublist_map {A B} (f : A → B) (l k : list A) :
  l `sublist_of` k → f <$> l `sublist_of` f <$> k.
Proof.
  induction 1 as [|x l k _ IH|x l k _ IH]; simpl.
  - constructor.
  - by apply sublist_skip.
  - by apply sublist_cons.
Qed.

(** X9: the data set follows the discovery order: the file names of
    its records, in order, are a subsequence of the names kept for the
    discovered paths, so it never holds more records than there are
    sources. *)
Theorem create_df_follows_discovery (path : string) (tsvs : list string)
    (out : list sample) :
  find_tsv_files path = Ok tsvs →
  create_df path = Ok out →
  ∃ names, mapM filename_of tsvs = Ok names
           ∧ sample_filename <$> out `sublist_of` names
           ∧ (length out ≤ length tsvs)%nat.
Proof.
  intros Hfind Hout.
  destruct (create_df_Ok path tsvs out Hfind Hout) as (data_list & Hbuild & Hnorm).
  exists (sample_filename <$> data_list).
  split; [by apply build_all_filenames|].
  assert (sample_filename <$> out `sublist_of` sample_filename <$> data_list) as Hsub.
  { rewrite (normalise_dates_filenames _ _ Hnorm), DataFrame_filenames.
    apply sublist_map, dedup_sublist. }
  split; [done|].
  apply sublist_length in Hsub. rewrite !length_fmap in Hsub.
  apply mapM_Ok, Forall2_length in Hbuild. lia.
Qed.

(** X10: no source is skipped: when one discovered path fails to load
    [create_df] raises; so a data set that is returned was built from
    every discovered path, and an empty discovery gives the empty data
    set. *)
Theorem create_df_loads_every_source (path : string) (tsvs : list string) :
  find_tsv_files path = Ok tsvs →
  (∀ tsv e, tsv ∈ tsvs → load_dataframe tsv = Raise e →
            ∃ e', create_df path = Raise e')
  ∧ (∀ out, create_df path = Ok out →
            ∀ tsv, tsv ∈ tsvs → ∃ loaded, load_dataframe tsv = Ok loaded)
  ∧ (tsvs = [] → create_df path = Ok []).
Proof.
  intros Hfind.
  assert (∀ tsv e, tsv ∈ tsvs → load_dataframe tsv = Raise e →
                   ∃ e', create_df path = Raise e') as Hraise.
  { intros tsv e Htsv Hload.
    destruct (mapM_Raise (λ tsv, '(df_temp, nb_objects, _) ← load_dataframe tsv;
                                 build_record df_temp nb_objects tsv) tsvs)
      as [_ [e' He']].
    { exists tsv, e. split; [done|]. by rewrite Hload. }
    exists e'. unfold create_df, build_all. by rewrite Hfind, bind_Ok, He'. }
  split; [done|]. split.
  - intros out Hout tsv Htsv.
    destruct (load_dataframe tsv) as [loaded|e] eqn:Hload; [by exists loaded|].
    destruct (Hraise tsv e Htsv Hload) as [e' He']. congruence.
  - intros ->. unfold create_df. by rewrite Hfind.
Qed.
End assembler_more.

Lemma create_df_follows_discovery_witness :
  ∃ out names,
    create_df (builtins:=decimal_literals) (pandas:=iso8601_dates) (utils:=two_archives)
      "../data/export/" = Ok out
    ∧ mapM filename_of
        ["../data/export/a.zip:sample_001.tsv"; "../data/export/b.zip:sample_001.tsv"]
      = Ok names
    ∧ sample_filename <$> out `sublist_of` names.
Proof.
  destruct (create_df (builtins:=decimal_literals) (pandas:=iso8601_dates)
              (utils:=two_archives) "../data/export/") as [out|e] eqn:Hout;
    [|by vm_compute in Hout].
  destruct (create_df_follows_discovery (builtins:=decimal_literals)
              (pandas:=iso8601_dates) (utils:=two_archives) "../data/export/"
              ["../data/export/a.zip:sample_001.tsv"; "../data/export/b.zip:sample_001.tsv"]
              out eq_refl Hout) as (names & Hnames & Hsub & _).
  by exists out, names.
Defined.

Lemma create_df_loads_every_source_witness :
  ∃ e, create_df (builtins:=decimal_literals) (pandas:=iso8601_dates)
         (utils:=unreadable_source) "../data/export/" = Raise e.
Proof.
  destruct (create_df_loads_every_source (builtins:=decimal_literals)
              (pandas:=iso8601_dates) (utils:=unreadable_source) "../data/export/"
              ["../data/export/broken.tsv"] eq_refl) as [Hraise _].
  apply (Hraise "../data/export/broken.tsv" ValueError); [by left|reflexivity].
Defined.

(** ** The selection callback, further *)

(** The callback on click data that names a point, step by step. *)
Lemma select_point_click (p : point) (ps : list point) (self : WorldMap) :
  select_point (Some {| points := p :: ps |}) self
  = let lit := {| controller := controller self; publisher := publisher self;
                  df := df self;
                  fig := {| customdata := customdata (fig self);
                            marker_size := marker_size (fig self);
                            marker_opacity :=
                              highlight (pointNumber p) (length (df self)) |} |} in
    match point_customdata p with
    | [] => (Raise IndexError, lit)
    | dataset_name :: _ =>
        match controller self with
        | None => (Raise AttributeError, lit)
        | Some log =>
            (Ok (Figure (fig lit)),
             {| controller := Some (log ++ [(publisher self, dataset_name)])%list;
                publisher := publisher self; df := df self; fig := fig lit |})
        end
    end.
Proof.
  unfold select_point, mbind, act_bind, lift, read, update_traces_opacity,
    controller_publish, highlight. simpl.
  destruct (point_customdata p) as [|dataset_name ?]; [done|]. simpl.
  by destruct (controller self).
Qed.

Lemma select_point_opacity (p : point) (ps : list point) (self : WorldMap) :
  marker_opacity (fig (select_point (Some {| points := p :: ps |}) self).2)
  = highlight (pointNumber p) (length (df self)).
Proof.
  rewrite select_point_click. simpl.
  destruct (point_customdata p); [done|]. by destruct (controller self).
Qed.

Lemma highlight_lookup (pn : Z) (rows j : nat) :
  (j < rows)%nat →
  highlight pn rows !! j = Some (if Z.of_nat j =? pn then PyInt 1 else PyFloat 0.5).
Proof.
  intros Hj. unfold highlight. by rewrite list_lookup_fmap, lookup_seq_lt.
Qed.

Lemma highlight_length (pn : Z) (rows : nat) : length (highlight pn rows) = rows.
Proof. unfold highlight. by rewrite length_fmap, length_seq. Qed.

Lemma highlight_emphasised (pn : Z) (rows j : nat) :
  highlight pn rows !! j = Some (PyInt 1) → Z.of_nat j = pn ∧ (j < rows)%nat.
Proof.
  intros Hj.
  assert (j < rows)%nat as Hlt.
  { apply lookup_lt_Some in Hj. by rewrite highlight_length in Hj. }
  rewrite highlight_lookup in Hj by done.
  destruct (Z.eqb_spec (Z.of_nat j) pn); [done|discriminate].
Qed.

(** X11: a click that names a point rewrites the opacities to one per
    row, 1 on the row whose index is the point number and 0.5 on every
    other, whether or not the publication that follows succeeds; at
    most one row is emphasised. *)
Theorem select_point_emphasises_one (clickData : click) (p : point)
    (ps : list point) (self : WorldMap) :
  points clickData = p :: ps →
  let opacity := marker_opacity (fig (select_point (Some clickData) self).2) in
  length opacity = length (df self)
  ∧ (∀ j : nat, (j < length (df self))%nat →
       opacity !! j = Some (if Z.of_nat j =? pointNumber p then PyInt 1 else PyFloat 0.5))
  ∧ (∀ j k : nat, opacity !! j = Some (PyInt 1) → opacity !! k = Some (PyInt 1) → j = k).
Proof.
  destruct clickData as [pts]. cbn [points]. intros ->. cbv zeta.
  rewrite select_point_opacity.
  split; [apply highlight_length|]. split; [intros j; apply highlight_lookup|].
  intros j k [Hj _]%highlight_emphasised [Hk _]%highlight_emphasised. lia.
Qed.

(** X12: the published payload is the head of the customdata the event
    carries, on the topic held by [self], for any point number: the
    callback does not look the point up in the data set. *)
Theorem select_point_publishes_event_payload (clickData : click) (p : point)
    (ps : list point) (dataset_name : string) (rest : list string)
    (log : list (string * string)) (self : WorldMap) :
  points clickData = p :: ps →
  point_customdata p = dataset_name :: rest →
  controller self = Some log →
  ∃ self',
    select_point (Some clickData) self = (Ok (Figure (fig self')), self')
    ∧ controller self' = Some (log ++ [(publisher self, dataset_name)])%list
    ∧ df self' = df self.
Proof.
  destruct clickData as [pts]. cbn [points]. intros -> Hdata Hlog.
  rewrite select_point_click, Hdata, Hlog. cbv zeta.
  by exists
    {| controller := Some (log ++ [(publisher self, dataset_name)])%list;
       publisher := publisher self; df := df self;
       fig := {| customdata := customdata (fig self);
                 marker_size := marker_size (fig self);
                 marker_opacity := highlight (pointNumber p) (length (df self)) |} |}.
Qed.

(** X13: click data that names no point, or a point without customdata,
    makes the callback raise [IndexError] and publish nothing; in the
    first case the state is untouched, in the second the opacities have
    already been rewritten. *)
Theorem select_point_index_errors (clickData : click) (self : WorldMap) :
  (points clickData = [] →
   select_point (Some clickData) self = (Raise IndexError, self))
  ∧ (∀ p ps, points clickData = p :: ps → point_customdata p = [] →
       (select_point (Some clickData) self).1 = Raise IndexError
       ∧ controller (select_point (Some clickData) self).2 = controller self
       ∧ marker_opacity (fig (select_point (Some clickData) self).2)
         = highlight (pointNumber p) (length (df self))).
Proof.
  destruct clickData as [pts]. cbn [points]. split.
  - by intros ->.
  - intros p ps -> Hdata. rewrite select_point_click, Hdata. done.
Qed.

(** X14: without a controller (the demo's [WorldMap(None, app)]) a
    click that names a point with customdata raises [AttributeError]:
    nothing is published, the data set is as it was, and the opacities
    have already been rewritten. *)
Theorem select_point_without_controller (clickData : click) (p : point)
    (ps : list point) (dataset_name : string) (rest : list string) (self : WorldMap) :
  points clickData = p :: ps →
  point_customdata p = dataset_name :: rest →
  controller self = None →
  (select_point (Some clickData) self).1 = Raise AttributeError
  ∧ controller (select_point (Some clickData) self).2 = None
  ∧ df (select_point (Some clickData) self).2 = df self
  ∧ marker_opacity (fig (select_point (Some clickData) self).2)
    = highlight (pointNumber p) (length (df self)).
Proof.
  destruct clickData as [pts]. cbn [points]. intros -> Hdata Hnone.
  rewrite select_point_click, Hdata, Hnone. done.
Qed.

(** X15: the emphasis is not cumulative: after any earlier callback, a
    click that names a point leaves the opacities it would have left
    without that earlier callback. *)
Theorem select_point_overrides_emphasis (earlier : option click) (clickData : click)
    (p : point) (ps : list point) (self : WorldMap) :
  points clickData = p :: ps →
  marker_opacity
    (fig (select_point (Some clickData) (select_point earlier self).2).2)
  = marker_opacity (fig (select_point (Some clickData) self).2).
Proof.
  destruct clickData as [pts]. cbn [points]. intros ->.
  rewrite !select_point_opacity.
  by destruct (select_point_frame earlier self) as (_ & -> & _).
Qed.

(** X16: a callback never drops or rewrites what was published before:
    it leaves a missing controller missing, and extends a controller's
    log by at most one message. *)
Theorem select_point_appends (clickData : option click) (self : WorldMap) :
  match controller self with
  | None => controller (select_point clickData self).2 = None
  | Some log =>
      ∃ more, controller (select_point clickData self).2 = Some (log ++ more)%list
              ∧ (length more ≤ 1)%nat
              ∧ (clickData = None → more = [])
  end.
Proof.
  assert (∀ log : list (string * string),
    ∃ more, Some log = Some (log ++ more)%list ∧ (length more ≤ 1)%nat
            ∧ (clickData = None → more = [])) as Hsame.
  { intros log. exists []. rewrite app_nil_r. split; [done|]. split; [simpl; lia|done]. }
  destruct clickData as [[[|p ps]]|].
  - destruct (controller self) as [log|] eqn:Hlog; simpl; rewrite Hlog; [|done].
    apply Hsame.
  - rewrite select_point_click. cbv zeta.
    destruct (point_customdata p) as [|dataset_name rest].
    + cbn [snd controller].
      destruct (controller self) as [log|]; [apply Hsame|done].
    + destruct (controller self) as [log|]; cbn [snd controller]; [|done].
      exists [(publisher self, dataset_name)].
      split; [done|]. split; [simpl; lia|done].
  - destruct (controller self) as [log|] eqn:Hlog; simpl; rewrite Hlog; [|done].
    apply Hsame.
Qed.

Lemma highlight_none (rows : nat) : highlight (-1) rows = replicate rows (PyFloat 0.5).
Proof.
  unfold highlight. generalize 0%nat as start.
  induction rows as [|rows IH]; intros start; [done|].
  cbn [seq fmap list_fmap replicate]. f_equal; [|apply IH].
  destruct (Z.eqb_spec (Z.of_nat start) (-1)); [lia|done].
Qed.

(** What a callback can do to the figure. *)
Lemma select_point_figure (clickData : option click) (self : WorldMap) :
  marker_size (fig (select_point clickData self).2) = marker_size (fig self)
  ∧ (marker_opacity (fig (select_point clickData self).2) = marker_opacity (fig self)
     ∨ ∃ pn, marker_opacity (fig (select_point clickData self).2)
             = highlight pn (length (df self))).
Proof.
  destruct clickData as [[[|p ps]]|]; [by split; [|left]| |by split; [|left]].
  split.
  - rewrite select_point_click. cbv zeta.
    destruct (point_customdata p); [done|]. by destruct (controller self).
  - right. exists (pointNumber p). apply select_point_opacity.
Qed.

Section figure_facts.
Context {builtins : Builtins} {pandas : Pandas} {utils : Utils}.

(** X17: in every state the program can be in, the size list and the
    opacity list the program has handed to the traces of the figure
    have one entry per record of the data set: every size is 10, every
    opacity is 1 or 0.5, and at most one opacity is 1. *)
Theorem reachable_marker_lists (self : WorldMap) :
  reachable self →
  marker_size (fig self) = replicate (length (df self)) (PyInt 10)
  ∧ length (marker_opacity (fig self)) = length (df self)
  ∧ (∀ (j : nat) o, marker_opacity (fig self) !! j = Some o →
                    o = PyInt 1 ∨ o = PyFloat 0.5)
  ∧ (∀ j k : nat, marker_opacity (fig self) !! j = Some (PyInt 1) →
                  marker_opacity (fig self) !! k = Some (PyInt 1) → j = k).
Proof.
  intros Hreach.
  assert (marker_size (fig self) = replicate (length (df self)) (PyInt 10)
          ∧ ∃ pn, marker_opacity (fig self) = highlight pn (length (df self)))
    as [Hsize [pn Hopacity]].
  { induction Hreach as [controller self Hinit|self clickData _ [IHsize [pn IHopacity]]].
    - unfold WorldMap_init in Hinit.
      destruct (create_df "../data/export/") as [data|]; [|done].
      injection Hinit as <-. split; [done|]. exists (-1). simpl.
      by rewrite highlight_none.
    - destruct (select_point_frame clickData self) as (_ & Hdf & _).
      destruct (select_point_figure clickData self) as [Hsize [Hsame|[pn' Hnew]]].
      + rewrite Hsize, Hsame, Hdf. split; [done|]. by exists pn.
      + rewrite Hsize, Hnew, Hdf. split; [done|]. by exists pn'. }
  split; [done|].
  rewrite Hopacity. split; [apply highlight_length|]. split.
  - intros j o Hj.
    assert (j < length (df self))%nat as Hlt.
    { apply lookup_lt_Some in Hj. by rewrite highlight_length in Hj. }
    rewrite highlight_lookup in Hj by done. injection Hj as <-.
    destruct (Z.of_nat j =? pn); auto.
  - intros j k [Hj _]%highlight_emphasised [Hk _]%highlight_emphasised. lia.
Qed.
End figure_facts.

Lemma reachable_marker_lists_witness :
  ∃ self,
    WorldMap_init (builtins:=decimal_literals) (pandas:=iso8601_dates)
      (utils:=two_archives) (Some []) = Ok self
    ∧ marker_size (fig (select_point (click_on (fig self) 0) self).2)
      = [PyInt 10; PyInt 10].
Proof.
  eexists. split; [by vm_compute|].
  match goal with |- marker_size (fig ?s) = _ =>
    destruct (reachable_marker_lists (builtins:=decimal_literals)
                (pandas:=iso8601_dates) (utils:=two_archives) s)
      as (-> & _)
  end.
  - apply reachable_click. by apply (reachable_init (Some [])).
  - reflexivity.
Defined.

Lemma select_point_emphasises_one_witness :
  let self := {| controller := None; publisher := "visualization/dataset";
                 df := [unlocated_sample; unlocated_sample];
                 fig := make_world_map_fig [unlocated_sample; unlocated_sample] |} in
  let clickData := {| points := [ {| pointNumber := 1;
                                    point_customdata := ["sample_001.tsv"] |} ] |} in
  length (marker_opacity (fig (select_point (Some clickData) self).2)) = 2%nat.
Proof.
  intros self clickData.
  pose proof (select_point_emphasises_one clickData
                {| pointNumber := 1; point_customdata := ["sample_001.tsv"] |} [] self
                eq_refl) as Hone.
  cbv zeta in Hone. destruct Hone as [Hlength _]. exact Hlength.
Defined.

Lemma select_point_publishes_event_payload_witness :
  let self := {| controller := Some []; publisher := "visualization/dataset";
                 df := [unlocated_sample];
                 fig := make_world_map_fig [unlocated_sample] |} in
  let clickData := {| points := [ {| pointNumber := 7;
                                    point_customdata := ["elsewhere.tsv"] |} ] |} in
  ∃ self',
    select_point (Some clickData) self = (Ok (Figure (fig self')), self')
    ∧ controller self' = Some [("visualization/dataset", "elsewhere.tsv")]
    ∧ df self' = [unlocated_sample].
Proof.
  intros self clickData.
  by apply (select_point_publishes_event_payload clickData
              {| pointNumber := 7; point_customdata := ["elsewhere.tsv"] |} []
              "elsewhere.tsv" [] [] self).
Defined.

Lemma select_point_index_errors_witness :
  let self := {| controller := Some []; publisher := "visualization/dataset";
                 df := [unlocated_sample];
                 fig := make_world_map_fig [unlocated_sample] |} in
  select_point (Some {| points := [] |}) self = (Raise IndexError, self).
Proof.
  intros self.
  by apply (select_point_index_errors {| points := [] |} self).
Defined.

Lemma select_point_without_controller_witness :
  let self := {| controller := None; publisher := "visualization/dataset";
                 df := [unlocated_sample];
                 fig := make_world_map_fig [unlocated_sample] |} in
  let clickData := {| points := [ {| pointNumber := 0;
                                    point_customdata := ["sample_001.tsv"] |} ] |} in
  (select_point (Some clickData) self).1 = Raise AttributeError
  ∧ controller (select_point (Some clickData) self).2 = None
  ∧ df (select_point (Some clickData) self).2 = [unlocated_sample]
  ∧ marker_opacity (fig (select_point (Some clickData) self).2) = [PyInt 1].
Proof.
  intros self clickData.
  by apply (select_point_without_controller clickData
              {| pointNumber := 0; point_customdata := ["sample_001.tsv"] |} []
              "sample_001.tsv" [] self).
Defined.

Lemma select_point_overrides_emphasis_witness :
  let self := {| controller := Some []; publisher := "visualization/dataset";
                 df := [unlocated_sample; unlocated_sample];
                 fig := make_world_map_fig [unlocated_sample; unlocated_sample] |} in
  let first := {| points := [ {| pointNumber := 0;
                                point_customdata := ["sample_001.tsv"] |} ] |} in
  let second := {| points := [ {| pointNumber := 1;
                                 point_customdata := ["sample_001.tsv"] |} ] |} in
  marker_opacity (fig (select_point (Some second) (select_point (Some first) self).2).2)
  = marker_opacity (fig (select_point (Some second) self).2).
Proof.
  intros self first second.
  by apply (select_point_overrides_emphasis (Some first) second
              {| pointNumber := 1; point_customdata := ["sample_001.tsv"] |} [] self).
Defined.

(** ** Dates, further *)

(** X18: the date string keeps the calendar day and nothing else: for
    timestamps with a four-digit year, two of them are rendered alike
    exactly when they agree on year, month and day, whatever their
    time of day. *)
Theorem strftime_Ymd_same_day (t1 t2 : timestamp) :
  0 ≤ year t1 < 10000 → 0 ≤ month t1 < 100 → 0 ≤ day t1 < 100 →
  0 ≤ year t2 < 10000 → 0 ≤ month t2 < 100 → 0 ≤ day t2 < 100 →
  strftime_Ymd t1 = strftime_Ymd t2
  ↔ year t1 = year t2 ∧ month t1 = month t2 ∧ day t1 = day t2.
Proof.
  intros Hy1 Hm1 Hd1 Hy2 Hm2 Hd2. split.
  - intros Heq.
    destruct (strftime_Ymd_fields t1) as (Hy & Hm & Hd).
    rewrite Heq in Hy, Hm, Hd.
    destruct (strftime_Ymd_fields t2) as (Hy' & Hm' & Hd').
    rewrite Hy' in Hy. rewrite Hm' in Hm. rewrite Hd' in Hd.
    apply (f_equal natural) in Hy, Hm, Hd.
    rewrite !natural_pad4 in Hy by done. rewrite !natural_pad2 in Hm, Hd by done.
    split; [congruence|]. split; congruence.
  - intros (Hy & Hm & Hd). unfold strftime_Ymd. by rewrite Hy, Hm, Hd.
Qed.

Lemma strftime_Ymd_same_day_witness :
  strftime_Ymd {| year := 2023; month := 7; day := 4;
                  hour := 10; minute := 15; second := 0 |}
  = strftime_Ymd {| year := 2023; month := 7; day := 4;
                    hour := 12; minute := 15; second := 0 |}.
Proof.
  apply strftime_Ymd_same_day; simpl; lia.
Defined.

(** ** The data set over the life of the program *)

Section lifetime_facts.
Context {builtins : Builtins} {pandas : Pandas} {utils : Utils}.

(** X19: the data set is assembled once, from ["../data/export/"], and
    no callback ever changes it: in every state the program can be in,
    [df] is what [create_df] returned at start-up and the topic is
    ["visualization/dataset"]. *)
Theorem reachable_dataset_fixed (self : WorldMap) :
  reachable self →
  create_df "../data/export/" = Ok (df self)
  ∧ publisher self = "visualization/dataset".
Proof.
  induction 1 as [controller self Hinit|self clickData _ [IHdf IHtopic]].
  - unfold WorldMap_init in Hinit.
    destruct (create_df "../data/export/") as [data|]; [|done].
    by injection Hinit as <-.
  - by destruct (select_point_frame clickData self) as (-> & -> & _).
Qed.
End lifetime_facts.

Lemma reachable_dataset_fixed_witness :
  ∃ self,
    WorldMap_init (builtins:=decimal_literals) (pandas:=iso8601_dates)
      (utils:=two_archives) None = Ok self
    ∧ create_df (builtins:=decimal_literals) (pandas:=iso8601_dates)
        (utils:=two_archives) "../data/export/"
      = Ok (df (select_point (click_on (fig self) 1) self).2).
Proof.
  eexists. split; [by vm_compute|].
  apply reachable_dataset_fixed.
  apply reachable_click. by apply (reachable_init None).
Defined.

(** ** Exact duplicates *)

Section exact_duplicates.
Implicit Types (data_list : list sample) (r : sample).

Lemma float_eqb_refl (f : float) : is_nan f = false → (f =? f)%float = true.
Proof. unfold is_nan. by intros ->%negb_false_iff. Qed.

Lemma cell_eq_refl (c : cell) : is_nan_cell c = false → cell_eq c c = true.
Proof.
  destruct c as [f|z|s| |]; simpl; [apply float_eqb_refl|intros _..].
  - apply Z.eqb_refl.
  - apply String.eqb_refl.
  - done.
  - done.
Qed.

Lemma sample_eq_refl r : holds_nan r = false → sample_eq r r = true.
Proof.
  unfold holds_nan, sample_eq.
  intros [[[Hconc Hdate]%orb_false_elim Hlat]%orb_false_elim Hlon]%orb_false_elim.
  rewrite String.eqb_refl, !cell_eq_refl by done.
  destruct (Objects_ml r) as [z|f]; simpl.
  - by rewrite Z.eqb_refl.
  - by rewrite float_eqb_refl.
Qed.

(** X20: a record that holds no nan equals itself, so of two
    occurrences of it the earlier never survives the filter of line 74,
    and it is not in the result more often than once. *)
Theorem exact_duplicate_removed data_list (n m : nat) r :
  holds_nan r = false →
  (n < m)%nat →
  data_list !! n = Some r →
  data_list !! m = Some r →
  survives data_list n = false
  ∧ ∀ j k : nat, dedup data_list !! j = Some r → dedup data_list !! k = Some r → j = k.
Proof.
  intros Hnan Hlt Hn Hm. split.
  - apply (survives_false _ _ _ Hn). exists m, r. by rewrite sample_eq_refl.
  - intros j k Hj Hk.
    destruct (decide (j = k)) as [|Hne]; [done|].
    assert (sample_eq r r = false) as Heq; [|by rewrite sample_eq_refl in Heq].
    destruct (decide (j < k)%nat).
    + by apply (dedup_later_distinct data_list j k).
    + apply (dedup_later_distinct data_list k j); [lia|done..].
Qed.
End exact_duplicates.

Lemma exact_duplicate_removed_witness :
  let r := {| sample_filename := "sample_001.tsv"; Objects_ml := PyFloat 0.1;
              date := CStr "2023-07-04T10:15:00"; lat := CFloat 48.5;
              lon := CFloat (-4.25) |} in
  survives [r; r] 0 = false ∧ dedup [r; r] = [r].
Proof.
  intros r. split; [|by vm_compute].
  destruct (exact_duplicate_removed [r; r] 0 1 r) as [Hremoved _];
    [by vm_compute|lia|reflexivity..|].
  exact Hremoved.
Defined.
